(** * WebsiteAudit (app.py): a shallow embedding and its checked properties

    The audited program is the class [WebsiteAudit] of [app.py]: one HTTP
    GET, then four check groups (security, performance, seo, accessibility)
    that append human-readable findings to [self.issues].

    The embedding keeps the shape of the Python code:
    - [self] is a record threaded through a state-and-exception monad
      (attribute assignments made before a [raise] persist, as in Python);
    - [self.issues] is a dictionary ([gmap]) from category name to the list
      of findings, and [self.issues[k].append(m)] looks the key up first;
    - everything that leaves the process ([requests.get], [requests.head],
      the TLS probe, the clock, the HTML parser) is read from a [World]
      record, so every definition is executable once a world is given;
    - strings are sequences of 8-bit characters read as Latin-1 code
      points (the encoding [http.client] uses for header names). *)

From Stdlib Require Import Ascii QArith_base.
From stdpp Require Import numbers gmap strings list pretty.

Local Open Scope Z_scope.
Local Set Warnings "-register-all".

(** ** Python built-ins used by app.py *)

Module Py.

(** [s.startswith(p)] *)
Fixpoint startswith (s p : string) : bool :=
  match p, s with
  | EmptyString, _ => true
  | String c p', String d s' => if decide (c = d) then startswith s' p' else false
  | String _ _, EmptyString => false
  end.

(** Truth value of a [str]: non-empty. *)
Definition truthy (s : string) : bool :=
  match s with EmptyString => false | String _ _ => true end.

(** Truth value of [None]-or-[str] (the result of [dict.get]). *)
Definition truthy_opt (o : option string) : bool :=
  match o with None => false | Some s => truthy s end.

(** [c.isspace()] on the code points below 256. *)
Definition isspace (c : ascii) : bool :=
  let n := Z.of_nat (nat_of_ascii c) in
  ((9 <=? n) && (n <=? 13)) || ((28 <=? n) && (n <=? 32))
  || (n =? 133) || (n =? 160).

Fixpoint lstrip (s : string) : string :=
  match s with
  | EmptyString => EmptyString
  | String c s' => if isspace c then lstrip s' else s
  end.

(** [s.strip()] *)
Definition strip (s : string) : string :=
  String.rev (lstrip (String.rev (lstrip s))).

(** [c.lower()] on the code points below 256: A-Z and the Latin-1
    capitals (0xC0-0xDE except the multiplication sign 0xD7). *)
Definition lower_char (c : ascii) : ascii :=
  let n := nat_of_ascii c in
  let z := Z.of_nat n in
  if ((65 <=? z) && (z <=? 90))
     || ((192 <=? z) && (z <=? 222) && negb (z =? 215))
  then ascii_of_nat (n + 32) else c.

(** [s.lower()] *)
Fixpoint lower (s : string) : string :=
  match s with
  | EmptyString => EmptyString
  | String c s' => String (lower_char c) (lower s')
  end.

(** [s.split(sep)] for a non-empty separator: [skip] counts the
    characters of a separator occurrence still to be dropped, [cur] is
    the piece being read. *)
Fixpoint split_go (sep : string) (skip : nat) (cur : string) (s : string)
  : list string :=
  match s with
  | EmptyString => [cur]
  | String c s' =>
      match skip with
      | S k => split_go sep k cur s'
      | O =>
          if startswith s sep
          then cur :: split_go sep (Nat.pred (String.length sep)) EmptyString s'
          else split_go sep O (cur +:+ String c EmptyString) s'
      end
  end.

Definition split (s sep : string) : list string :=
  split_go sep O EmptyString s.

(** A Python value handed to the [ssl] module as [server_hostname]:
    app.py builds it with [str.split], so it is a string or a list of
    strings. *)
Inductive value :=
| Str (s : string)
| List (l : list string).

(** An exception: its class name and the text [str(e)] that an f-string
    interpolates. *)
Record exn := Exn { exn_class : string; exn_str : string }.

(** ** Floats

    A finite binary64 value is kept as the rational it denotes. *)

(** The integer nearest to [n / d] with ties to even, for [0 <= n],
    [0 < d]. *)
Definition div_half_even (n d : Z) : Z :=
  let q := n / d in
  let r := n mod d in
  if (d <? 2 * r) || ((d =? 2 * r) && Z.odd q) then q + 1 else q.

(** The integer with at most 53 significant bits nearest to [n >= 0]
    (ties to even): the mantissa rounding of int-to-float conversion. *)
Definition round53 (n : Z) : Z :=
  let bits := Z.log2 n + 1 in
  if bits <=? 53 then n
  else let sh := bits - 53 in div_half_even n (2 ^ sh) * 2 ^ sh.

(** [n / 1024] for an [int] n: CPython's true division is correctly
    rounded and raises [OverflowError] when the rounded quotient does
    not fit a binary64 (it would be at least [2^1024]). *)
Definition truediv_1024 (n : Z) : exn + Q :=
  let m := round53 (Z.abs n) in
  if 2 ^ 1034 <=? m
  then inl (Exn "OverflowError" "integer division result too large for a float")
  else inr (Qmake (Z.sgn n * m) 1024).

Definition zero_pad (width : nat) (s : string) : string :=
  String.string_of_list_ascii
    (replicate (width - String.length s)%nat "0"%char) +:+ s.

(** [f"{x:.<d>f}"] for a finite float [x] and [d >= 1]: the exact value
    of [x] rounded to [d] decimals, ties to even. *)
Definition format_f (d : nat) (x : Q) : string :=
  let p := 10 ^ Z.of_nat d in
  let n := div_half_even (Z.abs (Qnum x) * p) (Zpos (Qden x)) in
  (if Qnum x <? 0 then "-" else "")
  +:+ pretty (n / p) +:+ "." +:+ zero_pad d (pretty (n mod p)).

(** [x > k] for a float [x] and a small [int] k. *)
Definition float_gt (x : Q) (k : Z) : bool :=
  k * Zpos (Qden x) <? Qnum x.

End Py.

(** ** BeautifulSoup: the parsed document *)

Module Bs4.

(** A node of the tree [BeautifulSoup(text, 'html.parser')] builds: a
    [Tag] with its attribute dictionary and children, or a
    [NavigableString] (text, comment, ...). The [BeautifulSoup] object
    itself is the [Tag] named "[document]". *)
Inductive PageElement :=
| Tag (name : string) (attrs : gmap string string)
      (contents : list PageElement)
| NavigableString (text : string).

(** [tag.descendants]: every node below [e], in document order. *)
Fixpoint descendants (e : PageElement) : list PageElement :=
  match e with
  | NavigableString _ => []
  | Tag _ _ cs =>
      (fix go (l : list PageElement) : list PageElement :=
         match l with
         | [] => []
         | c :: l' => c :: descendants c ++ go l'
         end) cs
  end.

Definition is_tag (name : string) (e : PageElement) : bool :=
  match e with
  | Tag n _ _ => bool_decide (n = name)
  | NavigableString _ => false
  end.

(** [tag.get(key)]: the attribute, or [None]. *)
Definition get (e : PageElement) (key : string) : option string :=
  match e with
  | Tag _ a _ => a !! key
  | NavigableString _ => None
  end.

(** [soup.find_all(name)] *)
Definition find_all (root : PageElement) (name : string)
  : list PageElement :=
  List.filter (is_tag name) (descendants root).

(** [soup.find(name)]: the first match, or [None]. *)
Definition find (root : PageElement) (name : string)
  : option PageElement :=
  head (find_all root name).

(** [soup.find(name, attrs={key: val})] *)
Definition find_attr (root : PageElement) (name key val : string)
  : option PageElement :=
  head (List.filter (λ e, bool_decide (get e key = Some val))
                    (find_all root name)).

(** [tag.string]: the single [NavigableString] child, looked for
    through single-child tags; [None] when a tag on the way has no
    child or several. *)
Fixpoint string (e : PageElement) : option string :=
  match e with
  | NavigableString s => Some s
  | Tag _ _ cs =>
      match cs with
      | [c] => string c
      | _ => None
      end
  end.

End Bs4.

(** ** The outside world *)

(** What [requests.get] hands back. [parsed] is the outcome of
    [BeautifulSoup(self.response.text, 'html.parser')], which app.py
    evaluates only for status 200. *)
Record Response := {
  status_code : Z;
  headers : list (string * string);
  parsed : Py.exn + Bs4.PageElement
}.

(** What [requests.head] hands back. Only [headers.get('Content-Length', 0)]
    passed to [int] is read: [None] when the header is absent, otherwise
    what [int] makes of its text, an integer or a [ValueError]. *)
Record HeadResponse := {
  content_length : option (Py.exn + Z)
}.

Record World := {
  (** [requests.get(url, timeout=10)], with the seconds measured around
      the call by [time.time()] *)
  requests_get : string → Py.exn + (Response * Q);
  (** [requests.head(src, timeout=5)] *)
  requests_head : string → Py.exn + HeadResponse;
  (** connecting to port 443 of a host given as a [str], the handshake,
      [getpeercert()] and its ['notAfter'] entry *)
  peer_cert_not_after : string → Py.exn + string
}.

(** [bool(response)] is [response.ok]: false exactly when
    [raise_for_status()] would raise, for codes 400 to 599. *)
Definition Response_bool (r : Response) : bool :=
  negb ((400 <=? status_code r) && (status_code r <? 600)).

(** [key in response.headers] for requests' [CaseInsensitiveDict]. *)
Definition header_in (key : string) (hs : list (string * string)) : bool :=
  existsb (λ kv, bool_decide (Py.lower (fst kv) = Py.lower key)) hs.

(** The [with ctx.wrap_socket(socket.socket(), server_hostname=hostname)]
    block up to [cert['notAfter']]. The [ssl] module takes a host name
    that is a [str]; for a [list] [SSLContext._encode_hostname] raises
    before any connection is made (text as of CPython 3.7 and later). *)
Definition ssl_not_after (w : World) (hostname : Py.value)
  : Py.exn + string :=
  match hostname with
  | Py.Str h => peer_cert_not_after w h
  | Py.List _ =>
      inl (Py.Exn "AttributeError" "'list' object has no attribute 'decode'")
  end.

(** ** The object and the monad of its methods *)

Record WebsiteAudit := {
  url : string;
  issues : gmap string (list string);
  soup : option Bs4.PageElement;
  response : option Response;
  (** [None] while the attribute does not exist ([hasattr] is false) *)
  load_time : option Q
}.

Inductive outcome (A : Type) :=
| Returns (a : A)
| Raises (e : Py.exn).
Arguments Returns {A} a.
Arguments Raises {A} e.

(** A method body: it reads and updates [self] and either returns or
    raises; updates made before the [raise] stay. *)
Definition M (A : Type) : Type := WebsiteAudit → outcome A * WebsiteAudit.

Global Instance M_ret : MRet M := λ A a self, (Returns a, self).
Global Instance M_bind : MBind M := λ A B f m self,
  match m self with
  | (Returns a, self') => f a self'
  | (Raises e, self') => (Raises e, self')
  end.

Definition raise {A} (e : Py.exn) : M A := λ self, (Raises e, self).
Definition get_self : M WebsiteAudit := λ self, (Returns self, self).
Definition put_self (s : WebsiteAudit) : M unit := λ _, (Returns (), s).

(** A call whose result may be an exception. *)
Definition call {A} (r : Py.exn + A) : M A :=
  match r with inl e => raise e | inr a => mret a end.

(** [try: body except Exception as e: handler(e)] *)
Definition try_except {A} (body : M A) (handler : Py.exn → M A) : M A :=
  λ self,
    match body self with
    | (Returns a, self') => (Returns a, self')
    | (Raises e, self') => handler e self'
    end.

(** [for x in l: body(x)] *)
Fixpoint for_each {A} (l : list A) (body : A → M unit) : M unit :=
  match l with
  | [] => mret ()
  | x :: l' => body x ;; for_each l' body
  end.

Definition pass : M unit := mret ().

(** [self] with one attribute replaced. *)
Definition with_issues (i : gmap string (list string)) (self : WebsiteAudit)
  : WebsiteAudit :=
  {| url := url self; issues := i; soup := soup self;
     response := response self; load_time := load_time self |}.

Definition with_response (r : Response) (self : WebsiteAudit) : WebsiteAudit :=
  {| url := url self; issues := issues self; soup := soup self;
     response := Some r; load_time := load_time self |}.

Definition with_load_time (t : Q) (self : WebsiteAudit) : WebsiteAudit :=
  {| url := url self; issues := issues self; soup := soup self;
     response := response self; load_time := Some t |}.

Definition with_soup (d : Bs4.PageElement) (self : WebsiteAudit)
  : WebsiteAudit :=
  {| url := url self; issues := issues self; soup := Some d;
     response := response self; load_time := load_time self |}.

(** [self.issues[k].append(m)] *)
Definition issues_append (k m : string) : M unit :=
  self ← get_self;
  match issues self !! k with
  | Some l => put_self (with_issues (<[k := l ++ [m]]> (issues self)) self)
  | None => raise (Py.Exn "KeyError" ("'" +:+ k +:+ "'"))
  end.

Definition set_response (r : Response) : M unit :=
  self ← get_self; put_self (with_response r self).

Definition set_load_time (t : Q) : M unit :=
  self ← get_self; put_self (with_load_time t self).

Definition set_soup (d : Bs4.PageElement) : M unit :=
  self ← get_self; put_self (with_soup d self).

(** ** class WebsiteAudit *)

(** [__init__(self, url)] *)
Definition __init__ (u : string) : WebsiteAudit :=
  {| url := if Py.startswith u "http" then u else "http://" +:+ u;
     issues := <["security" := []]> (<["performance" := []]>
               (<["seo" := []]> (<["accessibility" := []]> ∅)));
     soup := None;
     response := None;
     load_time := None |}.

Definition fetch_website (w : World) : M unit :=
  try_except
    (self ← get_self;
     got ← call (requests_get w (url self));
     set_response (fst got);;
     set_load_time (snd got);;
     self ← get_self;
     match response self with
     | Some r =>
         if status_code r =? 200
         then d ← call (parsed r); set_soup d
         else issues_append "performance"
                ("Page returned status code " +:+ pretty (status_code r))
     | None =>
         raise (Py.Exn "AttributeError"
                  "'NoneType' object has no attribute 'status_code'")
     end)
    (λ e, issues_append "performance"
            ("Failed to fetch website: " +:+ Py.exn_str e)).

(** [not self.response] *)
Definition not_response (o : option Response) : bool :=
  match o with
  | None => true
  | Some r => negb (Response_bool r)
  end.

(** [self.response.headers] *)
Definition response_headers (o : option Response)
  : M (list (string * string)) :=
  match o with
  | Some r => mret (headers r)
  | None =>
      raise (Py.Exn "AttributeError"
               "'NoneType' object has no attribute 'headers'")
  end.

(** [l[i]] *)
Definition index (l : list string) (i : nat) : M string :=
  match l !! i with
  | Some x => mret x
  | None => raise (Py.Exn "IndexError" "list index out of range")
  end.

Definition missing_header (key finding : string) (hs : list (string * string))
  : M unit :=
  if negb (header_in key hs) then issues_append "security" finding else pass.

Definition analyze_security (w : World) : M unit :=
  self ← get_self;
  if not_response (response self)
  then issues_append "security" "No response from server to analyze security."
  else
    (if negb (Py.startswith (url self) "https://")
     then issues_append "security"
            "Website does not use HTTPS. Enable HTTPS for security."
     else
       try_except
         (part ← index (Py.split (url self) "//") 1;
          let hostname := Py.List (Py.split part "/") in
          not_after ← call (ssl_not_after w hostname);
          issues_append "security"
            ("SSL certificate valid until " +:+ not_after))
         (λ e, issues_append "security"
                 ("SSL certificate check failed: " +:+ Py.exn_str e)));;
    hs ← response_headers (response self);
    missing_header "Content-Security-Policy"
      "Missing Content-Security-Policy header. Protects against XSS." hs;;
    missing_header "X-Content-Type-Options"
      "Missing X-Content-Type-Options header to prevent MIME-sniffing." hs;;
    missing_header "Strict-Transport-Security"
      "Missing Strict-Transport-Security header to enforce HTTPS." hs.

(** [int(head.headers.get('Content-Length', 0))] *)
Definition int_content_length (h : HeadResponse) : M Z :=
  match content_length h with
  | None => mret 0
  | Some r => call r
  end.

(** The body of the loop over the images (lines 66-74). *)
Definition check_image (w : World) (img : Bs4.PageElement) : M unit :=
  match Bs4.get img "src" with
  | Some src =>
      if Py.truthy src && Py.startswith src "http"
      then
        try_except
          (head ← call (requests_head w src);
           size ← int_content_length head;
           if 500000 <? size
           then
             kb ← call (Py.truediv_1024 size);
             issues_append "performance"
               ("Image " +:+ src +:+ " is large (" +:+ Py.format_f 1 kb
                +:+ " KB). Optimize image size.")
           else pass)
          (λ _, pass)
      else pass
  | None => pass
  end.

Definition analyze_performance (w : World) : M unit :=
  self ← get_self;
  match load_time self with
  | Some t =>
      if Py.float_gt t 3
      then issues_append "performance"
             ("Page load time is " +:+ Py.format_f 2 t
              +:+ "s. Aim for under 3 seconds.")
      else pass
  | None =>
      issues_append "performance" "Page load time could not be measured."
  end;;
  self ← get_self;
  let images :=
    match soup self with
    | Some d => Bs4.find_all d "img"
    | None => []
    end in
  for_each images (check_image w).

(** [not self.soup.title or not self.soup.title.string.strip()];
    [soup.title] is [soup.find('title')], and [.strip] on the [None] that
    [.string] may give raises. *)
Definition title_missing_or_empty (d : Bs4.PageElement) : M bool :=
  match Bs4.find d "title" with
  | None => mret true
  | Some t =>
      match Bs4.string t with
      | Some s => mret (negb (Py.truthy (Py.strip s)))
      | None =>
          raise (Py.Exn "AttributeError"
                   "'NoneType' object has no attribute 'strip'")
      end
  end.

Definition analyze_seo : M unit :=
  self ← get_self;
  match soup self with
  | None =>
      issues_append "seo" "HTML content could not be parsed. SEO check skipped."
  | Some d =>
      bad ← title_missing_or_empty d;
      (if bad : bool
       then issues_append "seo" "Missing or empty <title> tag."
       else pass);;
      (match Bs4.find_attr d "meta" "name" "description" with
       | None => issues_append "seo" "Missing meta description tag."
       | Some _ => pass
       end);;
      let h1s := Bs4.find_all d "h1" in
      if (length h1s =? 0)%nat
      then issues_append "seo" "No <h1> tag found."
      else if (1 <? length h1s)%nat
           then issues_append "seo" "Multiple <h1> tags found."
           else pass
  end.

(** [not html_tag or not html_tag.get('lang')] *)
Definition lang_missing (html_tag : option Bs4.PageElement) : bool :=
  match html_tag with
  | None => true
  | Some t => negb (Py.truthy_opt (Bs4.get t "lang"))
  end.

Definition analyze_accessibility : M unit :=
  self ← get_self;
  match soup self with
  | None =>
      issues_append "accessibility"
        "HTML content could not be parsed. Accessibility check skipped."
  | Some d =>
      for_each (Bs4.find_all d "img")
        (λ img,
           if negb (Py.truthy_opt (Bs4.get img "alt"))
           then issues_append "accessibility"
                  ("Image missing alt attribute: "
                   +:+ default "unknown source" (Bs4.get img "src"))
           else pass);;
      if lang_missing (Bs4.find d "html")
      then issues_append "accessibility"
             "Missing 'lang' attribute in <html> tag."
      else pass
  end.

Definition run_audit (w : World) : M (gmap string (list string)) :=
  fetch_website w;;
  analyze_security w;;
  analyze_performance w;;
  analyze_seo;;
  analyze_accessibility;;
  self ← get_self;
  mret (issues self).

(** [WebsiteAudit(url).run_audit()], as [home] calls it: what the caller
    gets, a report or an exception. *)
Definition audit (w : World) (u : string)
  : outcome (gmap string (list string)) :=
  fst (run_audit w (__init__ u)).

(** ** The Flask view *)

(** What [home] reads of Flask's [request]: the method and the form
    fields ([request.form.get] gives a field's value or [None]). *)
Record Request := {
  method : string;
  form : gmap string string
}.

(** The call [render_template(template, report=..., url=...)] that ends
    [home]: the template name and the two context values. *)
Record Rendered := {
  template : string;
  ctx_report : option (gmap string (list string));
  ctx_url : option string
}.

(** [home()] *)
Definition home (w : World) (request : Request) : outcome Rendered :=
  if bool_decide (method request = "POST")
  then
    let url := form request !! "url" in
    match url with
    | Some u =>
        if Py.truthy u
        then
          match audit w u with
          | Returns report =>
              Returns {| template := "index.html";
                         ctx_report := Some report; ctx_url := url |}
          | Raises e => Raises e
          end
        else Returns {| template := "index.html";
                        ctx_report := None; ctx_url := url |}
    | None => Returns {| template := "index.html";
                         ctx_report := None; ctx_url := url |}
    end
  else Returns {| template := "index.html";
                  ctx_report := None; ctx_url := Some "" |}.

(** ** Vocabulary of the statements *)

(** The object once the findings [ms] have been appended to category [k]. *)
Definition emit (k : string) (ms : list string) (self : WebsiteAudit)
  : WebsiteAudit :=
  with_issues (<[k := default [] (issues self !! k) ++ ms]> (issues self)) self.

Definition categories : gset string :=
  {[ "security"; "performance"; "seo"; "accessibility" ]}.

(** [self'] is [self] after some findings were appended: same target,
    same categories, every list extended at its end. *)
Definition grows (self self' : WebsiteAudit) : Prop :=
  url self' = url self
  ∧ dom (issues self') = dom (issues self)
  ∧ ∀ k l, issues self !! k = Some l →
           ∃ l', issues self' !! k = Some (l ++ l').

(** A method that, returning or raising, only appends findings. *)
Definition append_only {A} (m : M A) : Prop :=
  ∀ self, grows self (snd (m self)).

(** The five methods [run_audit] calls, in order. *)
Definition operations (w : World) : list (M unit) :=
  [fetch_website w; analyze_security w; analyze_performance w;
   analyze_seo; analyze_accessibility].

(** The findings of the three header tests of [analyze_security]. *)
Definition missing_header_findings (hs : list (string * string))
  : list string :=
  (if header_in "Content-Security-Policy" hs then []
   else ["Missing Content-Security-Policy header. Protects against XSS."])
  ++ (if header_in "X-Content-Type-Options" hs then []
      else ["Missing X-Content-Type-Options header to prevent MIME-sniffing."])
  ++ (if header_in "Strict-Transport-Security" hs then []
      else ["Missing Strict-Transport-Security header to enforce HTTPS."]).

(** The finding of the accessibility loop for one image. *)
Definition alt_finding (img : Bs4.PageElement) : string :=
  "Image missing alt attribute: "
  +:+ default "unknown source" (Bs4.get img "src").

Definition lacks_alt (img : Bs4.PageElement) : bool :=
  negb (Py.truthy_opt (Bs4.get img "alt")).

(** A method that, returning or raising, changes nothing of [self] but
    the list of category [k], to which it appends. *)
Definition emits {A} (k : string) (m : M A) : Prop :=
  ∀ self, is_Some (issues self !! k) →
          ∃ fs, snd (m self) = emit k fs self.

(** The page on which the title test of [analyze_seo] raises: it has a
    title element whose [.string] is [None]. *)
Definition title_without_string (d : Bs4.PageElement) : bool :=
  match Bs4.find d "title" with
  | Some t =>
      match Bs4.string t with
      | None => true
      | Some _ => false
      end
  | None => false
  end.

(** Every character of [s] is white space ([s] may be empty). *)
Fixpoint all_space (s : string) : bool :=
  match s with
  | EmptyString => true
  | String c s' => Py.isspace c && all_space s'
  end.

(** The findings of the three tests of [analyze_seo], for a page on
    which the title test returns. *)
Definition title_finding (d : Bs4.PageElement) : list string :=
  match Bs4.find d "title" with
  | None => ["Missing or empty <title> tag."]
  | Some t =>
      match Bs4.string t with
      | Some s =>
          if all_space s
          then ["Missing or empty <title> tag."] else []
      | None => []
      end
  end.

Definition meta_finding (d : Bs4.PageElement) : list string :=
  match Bs4.find_attr d "meta" "name" "description" with
  | None => ["Missing meta description tag."]
  | Some _ => []
  end.

Definition h1_finding (d : Bs4.PageElement) : list string :=
  match length (Bs4.find_all d "h1") with
  | O => ["No <h1> tag found."]
  | S O => []
  | S (S _) => ["Multiple <h1> tags found."]
  end.

(** The findings of [analyze_accessibility] on a parsed page. *)
Definition accessibility_list (d : Bs4.PageElement) : list string :=
  (alt_finding <$> List.filter lacks_alt (Bs4.find_all d "img"))
  ++ (if lang_missing (Bs4.find d "html")
      then ["Missing 'lang' attribute in <html> tag."] else []).

(** The finding of the load-time test of [analyze_performance]. *)
Definition load_time_finding (t : option Q) : list string :=
  match t with
  | Some x =>
      if Py.float_gt x 3
      then ["Page load time is " +:+ Py.format_f 2 x
            +:+ "s. Aim for under 3 seconds."]
      else []
  | None => ["Page load time could not be measured."]
  end.

(** The findings of [analyze_security] on an object whose target and
    response are those of [self]. *)
Definition security_list (self : WebsiteAudit) : list string :=
  match response self with
  | Some r =>
      if Response_bool r
      then (if Py.startswith (url self) "https://"
            then "SSL certificate check failed: 'list' object has no attribute 'decode'"
            else "Website does not use HTTPS. Enable HTTPS for security.")
           :: missing_header_findings (headers r)
      else ["No response from server to analyze security."]
  | None => ["No response from server to analyze security."]
  end.

(** The img elements [analyze_performance] iterates over. *)
Definition images (self : WebsiteAudit) : list Bs4.PageElement :=
  match soup self with
  | Some d => Bs4.find_all d "img"
  | None => []
  end.

(** The exception of the title test. *)
Definition strip_on_none : Py.exn :=
  Py.Exn "AttributeError" "'NoneType' object has no attribute 'strip'".

(** ** Concrete pages and worlds used in the examples *)

Definition document (cs : list Bs4.PageElement) : Bs4.PageElement :=
  Bs4.Tag "[document]" ∅ cs.

(** A page with a title, a meta description, one h1 and a lang. *)
Definition page_plain : Bs4.PageElement :=
  document
    [Bs4.Tag "html" {[ "lang" := "en" ]}
       [Bs4.Tag "head" ∅
          [Bs4.Tag "title" ∅ [Bs4.NavigableString "Home"];
           Bs4.Tag "meta"
             (<["name" := "description"]> {[ "content" := "A page" ]}) []];
        Bs4.Tag "body" ∅ [Bs4.Tag "h1" ∅ [Bs4.NavigableString "Hello"]]]].

(** The same page with [<title></title>] and no h1. *)
Definition page_empty_title : Bs4.PageElement :=
  document
    [Bs4.Tag "html" {[ "lang" := "en" ]}
       [Bs4.Tag "head" ∅
          [Bs4.Tag "title" ∅ [];
           Bs4.Tag "meta"
             (<["name" := "description"]> {[ "content" := "A page" ]}) []];
        Bs4.Tag "body" ∅ []]].

(** An image without alt under an html tag without lang. *)
Definition image_a : Bs4.PageElement :=
  Bs4.Tag "img" {[ "src" := "http://x/a.png" ]} [].

Definition page_image : Bs4.PageElement :=
  document [Bs4.Tag "html" ∅ [Bs4.Tag "body" ∅ [image_a]]].

Definition security_headers : list (string * string) :=
  [("Content-Security-Policy", "default-src https:");
   ("X-Content-Type-Options", "nosniff");
   ("Strict-Transport-Security", "max-age=31536000")].

(** A world in which every GET is answered in half a second with the
    given status, headers and page, every HEAD reports [cl], and every
    host presents a certificate valid until June 2030. *)
Definition world_serving (status : Z) (hs : list (string * string))
    (page : Bs4.PageElement) (cl : option (Py.exn + Z)) : World :=
  {| requests_get := λ _,
       inr ({| status_code := status; headers := hs; parsed := inr page |},
            (1 # 2)%Q);
     requests_head := λ _, inr {| content_length := cl |};
     peer_cert_not_after := λ _, inr "Jun  1 12:00:00 2030 GMT" |}.

(** An https site answering 200 with the three security headers. *)
Definition world_https_clean : World :=
  world_serving 200 security_headers page_plain None.

(** A site answering 404 without any security header. *)
Definition world_404 : World := world_serving 404 [] page_plain None.

(** A site whose page has an empty title element. *)
Definition world_empty_title : World :=
  world_serving 200 security_headers page_empty_title None.

(** A site whose image is announced with a Content-Length of 2^1034. *)
Definition world_huge_image : World :=
  world_serving 200 [] page_image (Some (inr (2 ^ 1034))).

(** A world in which nothing can be reached. *)
Definition world_unreachable : World :=
  {| requests_get := λ _,
       inl (Py.Exn "ConnectionError" "Max retries exceeded");
     requests_head := λ _,
       inl (Py.Exn "ConnectionError" "Max retries exceeded");
     peer_cert_not_after := λ _, inl (Py.Exn "OSError" "timed out") |}.

(** A site whose body makes the HTML parser raise. *)
Definition world_unparsable : World :=
  {| requests_get := λ _,
       inr ({| status_code := 200; headers := security_headers;
               parsed := inl (Py.Exn "ParserRejectedMarkup" "bad markup") |},
            (7 # 2)%Q);
     requests_head := λ _,
       inl (Py.Exn "ConnectionError" "Max retries exceeded");
     peer_cert_not_after := λ _, inl (Py.Exn "OSError" "timed out") |}.

(** A site that answers every GET with 301 and no security header. *)
Definition world_moved : World := world_serving 301 [] page_plain None.

(** * Properties *)

Local Arguments String.append : simpl never.
Local Arguments Py.format_f : simpl never.
Local Arguments Py.split : simpl never.
Local Arguments Py.startswith : simpl never.

(** ** The monad *)

Lemma bind_returns {A B} (m : M A) (f : A → M B) self a self' :
  m self = (Returns a, self') → (m ≫= f) self = f a self'.
Proof. intros H. unfold mbind, M_bind. by rewrite H. Qed.

Lemma bind_raises {A B} (m : M A) (f : A → M B) self e self' :
  m self = (Raises e, self') → (m ≫= f) self = (Raises e, self').
Proof. intros H. unfold mbind, M_bind. by rewrite H. Qed.

Lemma try_raises {A} (m : M A) h self e self' :
  m self = (Raises e, self') → try_except m h self = h e self'.
Proof. intros H. unfold try_except. by rewrite H. Qed.

(** ** Appending findings *)

Lemma with_issues_id self : with_issues (issues self) self = self.
Proof. by destruct self. Qed.

Lemma emit_nil k self : is_Some (issues self !! k) → emit k [] self = self.
Proof.
  intros [l Hl]. unfold emit. rewrite Hl. simpl. rewrite app_nil_r.
  rewrite insert_id by done. apply with_issues_id.
Qed.

Lemma emit_emit k ms1 ms2 self :
  emit k ms2 (emit k ms1 self) = emit k (ms1 ++ ms2) self.
Proof.
  unfold emit, with_issues. simpl. rewrite lookup_insert_eq. simpl.
  rewrite insert_insert_eq. by rewrite app_assoc.
Qed.

Lemma lookup_emit_eq k ms self l :
  issues self !! k = Some l → issues (emit k ms self) !! k = Some (l ++ ms).
Proof. intros Hl. unfold emit. simpl. rewrite lookup_insert_eq. by rewrite Hl. Qed.

Lemma lookup_emit_ne k k' ms self :
  k ≠ k' → issues (emit k ms self) !! k' = issues self !! k'.
Proof. intros Hne. unfold emit. simpl. by rewrite lookup_insert_ne. Qed.

Lemma issues_append_emit k m self :
  is_Some (issues self !! k) →
  issues_append k m self = (Returns (), emit k [m] self).
Proof.
  intros [l Hl]. unfold issues_append, emit, mbind, M_bind, get_self, put_self.
  by rewrite Hl.
Qed.

Lemma emit_is_Some k k' ms self :
  is_Some (issues self !! k') → is_Some (issues (emit k ms self) !! k').
Proof.
  intros H. unfold emit. simpl. destruct (decide (k = k')) as [->|Hne].
  - rewrite lookup_insert_eq. eauto.
  - by rewrite lookup_insert_ne.
Qed.

(** A loop whose body appends [g x] when [c x] holds appends the findings
    of the selected elements, in order. *)
Lemma for_each_emit {A} k (c : A → bool) (g : A → string) xs self :
  is_Some (issues self !! k) →
  for_each xs (λ x, if c x then issues_append k (g x) else pass) self
  = (Returns (), emit k (g <$> List.filter c xs) self).
Proof.
  revert self. induction xs as [|x xs IH]; intros self Hk; simpl.
  - by rewrite emit_nil.
  - destruct (c x); simpl.
    + erewrite bind_returns by (by apply issues_append_emit).
      rewrite IH by (by apply emit_is_Some). by rewrite emit_emit.
    + erewrite bind_returns by reflexivity. by apply IH.
Qed.

(** ** Every method only appends *)

Lemma grows_refl self : grows self self.
Proof.
  repeat split. intros k l Hl. exists []. by rewrite app_nil_r.
Qed.

Lemma grows_trans s1 s2 s3 : grows s1 s2 → grows s2 s3 → grows s1 s3.
Proof.
  intros (Hu1 & Hd1 & H1) (Hu2 & Hd2 & H2). repeat split.
  - congruence.
  - congruence.
  - intros k l Hl. destruct (H1 k l Hl) as [l1 Hl1].
    destruct (H2 k _ Hl1) as [l2 Hl2]. exists (l1 ++ l2).
    by rewrite app_assoc.
Qed.

Lemma ao_ret {A} (a : A) : append_only (mret a).
Proof. intros self. apply grows_refl. Qed.

Lemma ao_pass : append_only pass.
Proof. apply ao_ret. Qed.

Lemma ao_raise {A} e : append_only (raise (A:=A) e).
Proof. intros self. apply grows_refl. Qed.

Lemma ao_get_self : append_only get_self.
Proof. intros self. apply grows_refl. Qed.

Lemma ao_call {A} (r : Py.exn + A) : append_only (call r).
Proof. destruct r; [apply ao_raise | apply ao_ret]. Qed.

Lemma ao_bind {A B} (m : M A) (f : A → M B) :
  append_only m → (∀ a, append_only (f a)) → append_only (m ≫= f).
Proof.
  intros Hm Hf self. specialize (Hm self). unfold mbind, M_bind.
  destruct (m self) as [[a|e] s1]; simpl in *.
  - eapply grows_trans; [exact Hm | apply Hf].
  - exact Hm.
Qed.

Lemma ao_try {A} (m : M A) h :
  append_only m → (∀ e, append_only (h e)) → append_only (try_except m h).
Proof.
  intros Hm Hh self. specialize (Hm self). unfold try_except.
  destruct (m self) as [[a|e] s1]; simpl in *.
  - exact Hm.
  - eapply grows_trans; [exact Hm | apply Hh].
Qed.

Lemma ao_for_each {A} (l : list A) body :
  (∀ x, append_only (body x)) → append_only (for_each l body).
Proof.
  intros Hb. induction l as [|x l IH]; simpl.
  - apply ao_ret.
  - apply ao_bind; auto.
Qed.

Lemma ao_issues_append k m : append_only (issues_append k m).
Proof.
  intros self. unfold issues_append, mbind, M_bind, get_self, put_self, raise.
  destruct (issues self !! k) as [l|] eqn:Hl; simpl; [|apply grows_refl].
  split; [reflexivity|]. split; simpl.
  - apply dom_insert_lookup_L. by exists l.
  - intros k' l' Hl'. destruct (decide (k = k')) as [->|Hne].
    + rewrite lookup_insert_eq. exists [m]. congruence.
    + rewrite lookup_insert_ne by done. exists []. by rewrite app_nil_r.
Qed.

Lemma grows_same_issues self self' :
  url self' = url self → issues self' = issues self → grows self self'.
Proof.
  intros Hu Hi. unfold grows. rewrite Hu, Hi. apply grows_refl.
Qed.

Lemma ao_set_response r : append_only (set_response r).
Proof. intros self. by apply grows_same_issues. Qed.

Lemma ao_set_load_time t : append_only (set_load_time t).
Proof. intros self. by apply grows_same_issues. Qed.

Lemma ao_set_soup d : append_only (set_soup d).
Proof. intros self. by apply grows_same_issues. Qed.

Create HintDb ao discriminated.
#[local] Hint Resolve ao_ret ao_pass ao_raise ao_get_self ao_call
  ao_issues_append ao_set_response ao_set_load_time ao_set_soup : ao.

(** Walks down a method body: binds, handlers and loops by the closure
    lemmas, branches by cases. *)
Ltac ao_walk :=
  repeat first
    [ progress auto with ao
    | apply ao_bind; [|intros ?]
    | apply ao_try; [|intros ?]
    | apply ao_for_each; intros ?
    | case_match ].

Lemma ao_fetch_website w : append_only (fetch_website w).
Proof. unfold fetch_website. ao_walk. Qed.

Lemma ao_analyze_security w : append_only (analyze_security w).
Proof.
  unfold analyze_security, missing_header, response_headers, index. ao_walk.
Qed.

Lemma ao_check_image w img : append_only (check_image w img).
Proof. unfold check_image, int_content_length. ao_walk. Qed.

Lemma ao_analyze_performance w : append_only (analyze_performance w).
Proof.
  unfold analyze_performance. ao_walk; apply ao_check_image.
Qed.

Lemma ao_analyze_seo : append_only analyze_seo.
Proof. unfold analyze_seo, title_missing_or_empty. ao_walk. Qed.

Lemma ao_analyze_accessibility : append_only analyze_accessibility.
Proof. unfold analyze_accessibility. ao_walk. Qed.

Lemma ao_operations w op : op ∈ operations w → append_only op.
Proof.
  unfold operations. intros H.
  repeat (apply elem_of_cons in H as [->|H]);
    [apply ao_fetch_website | apply ao_analyze_security
    | apply ao_analyze_performance | apply ao_analyze_seo
    | apply ao_analyze_accessibility | by apply elem_of_nil in H].
Qed.

Lemma ao_run_audit w : append_only (run_audit w).
Proof.
  unfold run_audit.
  apply ao_bind; [apply ao_fetch_website | intros _].
  apply ao_bind; [apply ao_analyze_security | intros _].
  apply ao_bind; [apply ao_analyze_performance | intros _].
  apply ao_bind; [apply ao_analyze_seo | intros _].
  apply ao_bind; [apply ao_analyze_accessibility | intros _].
  apply ao_bind; [apply ao_get_self | intros self; apply ao_ret].
Qed.

Lemma run_audit_returns_issues w self r self' :
  run_audit w self = (Returns r, self') → r = issues self'.
Proof.
  unfold run_audit, mbind, M_bind, get_self, mret, M_ret.
  repeat match goal with
         | |- context [match ?m self with _ => _ end] => destruct (m self) as [[[]|?] ?]
         | |- context [match ?m ?s with _ => _ end] => destruct (m s) as [[[]|?] ?]
         end; intros H; inversion H; reflexivity.
Qed.

Lemma dom_issues_init u : dom (issues (__init__ u)) = categories.
Proof.
  unfold categories. simpl. rewrite !dom_insert_L, dom_empty_L. set_solver.
Qed.

(** ** The report always has its four categories *)

Lemma init_lookup u k :
  k ∈ categories → issues (__init__ u) !! k = Some [].
Proof.
  unfold categories. intros H.
  repeat (apply elem_of_union in H as [H|H]);
    apply elem_of_singleton in H as ->; reflexivity.
Qed.

(** C9. The report [run_audit] returns has exactly the keys security,
    performance, seo and accessibility, each bound to a list, and each of
    the five methods only appends to the lists it is given. *)
Theorem report_categories (w : World) (u : string)
    (r : gmap string (list string)) :
  audit w u = Returns r →
  dom r = categories
  ∧ (∀ k, k ∈ categories → ∃ l : list string, r !! k = Some l)
  ∧ (∀ op, op ∈ operations w → append_only op).
Proof.
  unfold audit. intros H.
  destruct (run_audit w (__init__ u)) as [o self'] eqn:E. simpl in H. subst o.
  pose proof (run_audit_returns_issues _ _ _ _ E) as ->.
  pose proof (ao_run_audit w (__init__ u)) as (_ & Hdom & _).
  rewrite E in Hdom. cbn [snd] in Hdom. rewrite dom_issues_init in Hdom.
  split; [exact Hdom|]. split.
  - intros k Hk. rewrite <- Hdom in Hk. apply elem_of_dom in Hk as [l Hl].
    by exists l.
  - apply ao_operations.
Qed.

Lemma report_categories_witness :
  ∃ r, audit world_unreachable "example.com" = Returns r
       ∧ dom r = categories.
Proof.
  eexists. split; [vm_compute; reflexivity|].
  apply (report_categories world_unreachable "example.com").
  vm_compute; reflexivity.
Defined.

(** ** What each method does when there is nothing to analyze *)

Lemma fetch_website_raises w self e :
  requests_get w (url self) = inl e →
  is_Some (issues self !! "performance") →
  fetch_website w self
  = (Returns (),
     emit "performance" ["Failed to fetch website: " +:+ Py.exn_str e] self).
Proof.
  intros Hget Hk. unfold fetch_website.
  erewrite try_raises; [by apply issues_append_emit|].
  erewrite bind_returns by reflexivity. rewrite Hget. reflexivity.
Qed.

Lemma analyze_security_no_response w self :
  not_response (response self) = true →
  is_Some (issues self !! "security") →
  analyze_security w self
  = (Returns (),
     emit "security" ["No response from server to analyze security."] self).
Proof.
  intros Hr Hk. unfold analyze_security.
  erewrite bind_returns by reflexivity. rewrite Hr.
  by apply issues_append_emit.
Qed.

Lemma analyze_performance_nothing w self :
  load_time self = None → soup self = None →
  is_Some (issues self !! "performance") →
  analyze_performance w self
  = (Returns (),
     emit "performance" ["Page load time could not be measured."] self).
Proof.
  intros Ht Hs Hk. unfold analyze_performance.
  erewrite bind_returns by reflexivity. rewrite Ht.
  erewrite bind_returns by (by apply issues_append_emit).
  erewrite bind_returns by reflexivity.
  simpl. rewrite Hs. reflexivity.
Qed.

Lemma analyze_seo_no_soup self :
  soup self = None →
  is_Some (issues self !! "seo") →
  analyze_seo self
  = (Returns (),
     emit "seo" ["HTML content could not be parsed. SEO check skipped."] self).
Proof.
  intros Hs Hk. unfold analyze_seo.
  erewrite bind_returns by reflexivity. rewrite Hs.
  by apply issues_append_emit.
Qed.

Lemma analyze_accessibility_no_soup self :
  soup self = None →
  is_Some (issues self !! "accessibility") →
  analyze_accessibility self
  = (Returns (),
     emit "accessibility"
       ["HTML content could not be parsed. Accessibility check skipped."]
       self).
Proof.
  intros Hs Hk. unfold analyze_accessibility.
  erewrite bind_returns by reflexivity. rewrite Hs.
  by apply issues_append_emit.
Qed.

Lemma init_is_Some u k : k ∈ categories → is_Some (issues (__init__ u) !! k).
Proof. intros H. rewrite init_lookup by done. eauto. Qed.

(** Discharges the side condition that a category is bound, on an object
    built from [__init__] by [emit]s. *)
Ltac bound :=
  repeat apply emit_is_Some;
  apply init_is_Some; unfold categories; set_solver.

(** Reads a category of an object built from [__init__] by [emit]s. *)
Ltac read_emit :=
  repeat first
    [ rewrite lookup_emit_ne by done
    | erewrite lookup_emit_eq; [reflexivity|] ];
  try (rewrite init_lookup by (unfold categories; set_solver)); try reflexivity.

(** C4. When the GET raises, the audit returns a report whose security,
    seo and accessibility lists hold exactly their placeholder and whose
    performance list holds the fetch-failure finding, followed by the
    finding that the load time could not be measured. *)
Theorem failed_fetch_report (w : World) (u : string) (e : Py.exn) :
  requests_get w (url (__init__ u)) = inl e →
  ∃ r, audit w u = Returns r
    ∧ r !! "security"
      = Some ["No response from server to analyze security."]
    ∧ r !! "seo"
      = Some ["HTML content could not be parsed. SEO check skipped."]
    ∧ r !! "accessibility"
      = Some ["HTML content could not be parsed. Accessibility check skipped."]
    ∧ r !! "performance"
      = Some ["Failed to fetch website: " +:+ Py.exn_str e;
              "Page load time could not be measured."].
Proof.
  intros Hget. unfold audit, run_audit.
  erewrite bind_returns by (by apply fetch_website_raises; [|bound]).
  erewrite bind_returns by (by apply analyze_security_no_response; [|bound]).
  erewrite bind_returns by (by apply analyze_performance_nothing; [| |bound]).
  erewrite bind_returns by (by apply analyze_seo_no_soup; [|bound]).
  erewrite bind_returns by (by apply analyze_accessibility_no_soup; [|bound]).
  erewrite bind_returns by reflexivity.
  eexists. split; [reflexivity|]. cbn [fst].
  repeat split; read_emit.
Qed.

Lemma failed_fetch_report_witness :
  ∃ r, audit world_unreachable "example.com" = Returns r
    ∧ r !! "performance"
      = Some ["Failed to fetch website: Max retries exceeded";
              "Page load time could not be measured."].
Proof.
  destruct (failed_fetch_report world_unreachable "example.com"
              (Py.Exn "ConnectionError" "Max retries exceeded") eq_refl)
    as (r & Hr & _ & _ & _ & Hp).
  exists r. split; [exact Hr | exact Hp].
Defined.

(** ** Accessibility *)

Lemma analyze_accessibility_emit self d :
  soup self = Some d →
  is_Some (issues self !! "accessibility") →
  analyze_accessibility self
  = (Returns (),
     emit "accessibility"
       ((alt_finding <$> List.filter lacks_alt (Bs4.find_all d "img"))
        ++ (if lang_missing (Bs4.find d "html")
            then ["Missing 'lang' attribute in <html> tag."] else []))
       self).
Proof.
  intros Hs Hk. unfold analyze_accessibility.
  erewrite bind_returns by reflexivity. rewrite Hs.
  erewrite bind_returns
    by (by apply (for_each_emit "accessibility" lacks_alt alt_finding)).
  destruct (lang_missing (Bs4.find d "html")).
  - rewrite issues_append_emit by (by apply emit_is_Some).
    by rewrite emit_emit.
  - by rewrite app_nil_r.
Qed.

(** C6. On a parsed document the accessibility check appends, for every
    img element whose alt is absent or empty and in document order, the
    finding naming its src (or "unknown source"), and then the lang
    finding when [find('html')] gives no element or one whose lang is
    absent (or empty). The page with one such image under an html tag
    without lang gives exactly the two findings of the scenario. *)
Theorem accessibility_findings (self : WebsiteAudit) (d : Bs4.PageElement)
    (l : list string) :
  soup self = Some d →
  issues self !! "accessibility" = Some l →
  ∃ self' tail,
    analyze_accessibility self = (Returns (), self')
    ∧ issues self' !! "accessibility"
      = Some (l ++ (alt_finding <$> List.filter lacks_alt (Bs4.find_all d "img"))
                ++ tail)
    ∧ (∀ img, lacks_alt img = true ↔
              Bs4.get img "alt" = None ∨ Bs4.get img "alt" = Some "")
    ∧ (∀ img, Bs4.get img "src" = None →
              alt_finding img = "Image missing alt attribute: unknown source")
    ∧ (∀ img src, Bs4.get img "src" = Some src →
              alt_finding img = "Image missing alt attribute: " +:+ src)
    ∧ (tail = ["Missing 'lang' attribute in <html> tag."] ∨ tail = [])
    ∧ (tail = ["Missing 'lang' attribute in <html> tag."] ↔
       Bs4.find d "html" = None
       ∨ ∃ t, Bs4.find d "html" = Some t
              ∧ (Bs4.get t "lang" = None ∨ Bs4.get t "lang" = Some ""))
    ∧ (d = page_image → l = [] →
       issues self' !! "accessibility"
       = Some ["Image missing alt attribute: http://x/a.png";
               "Missing 'lang' attribute in <html> tag."]).
Proof.
  intros Hs Hl.
  exists (emit "accessibility"
            ((alt_finding <$> List.filter lacks_alt (Bs4.find_all d "img"))
             ++ (if lang_missing (Bs4.find d "html")
                 then ["Missing 'lang' attribute in <html> tag."] else []))
            self).
  exists (if lang_missing (Bs4.find d "html")
          then ["Missing 'lang' attribute in <html> tag."] else []).
  split; [by apply analyze_accessibility_emit|].
  split; [by apply lookup_emit_eq|].
  split.
  { intros img. unfold lacks_alt.
    destruct (Bs4.get img "alt") as [[|c s]|]; simpl; split; intros H;
      try done; auto; destruct H as [H|H]; discriminate H. }
  split; [intros img H; unfold alt_finding; by rewrite H|].
  split; [intros img src H; unfold alt_finding; by rewrite H|].
  split; [destruct (lang_missing _); auto|].
  split.
  { unfold lang_missing.
    destruct (Bs4.find d "html") as [t|]; [|split; auto].
    destruct (Bs4.get t "lang") as [[|c s]|] eqn:Hlang; simpl; split;
      try done; eauto.
    intros [H|(t' & Ht' & H)]; [done|]. inversion Ht'; subst t'.
    rewrite Hlang in H. destruct H as [H|H]; discriminate H. }
  intros -> ->. erewrite lookup_emit_eq by done. reflexivity.
Qed.

Lemma accessibility_findings_witness :
  ∃ self', analyze_accessibility (with_soup page_image (__init__ "x.org"))
           = (Returns (), self')
    ∧ issues self' !! "accessibility"
      = Some ["Image missing alt attribute: http://x/a.png";
              "Missing 'lang' attribute in <html> tag."].
Proof.
  destruct (accessibility_findings (with_soup page_image (__init__ "x.org"))
              page_image [] eq_refl eq_refl)
    as (self' & tail & Hrun & _ & _ & _ & _ & _ & _ & Hscen).
  exists self'. split; [exact Hrun | by apply Hscen].
Defined.

(** ** Float conversion of image sizes *)

Lemma round53_small n : 0 ≤ n < 2 ^ 53 → Py.round53 n = n.
Proof.
  intros [H0 H1]. unfold Py.round53.
  destruct (Z.leb_spec (Z.log2 n + 1) 53) as [Hb|Hb]; [reflexivity|].
  exfalso. assert (0 < n) as Hpos.
  { destruct (decide (n = 0)) as [->|]; [|lia]. by vm_compute in Hb. }
  apply Z.log2_lt_pow2 in H1; lia.
Qed.

Lemma round53_bound n :
  0 < n → n < 2 ^ 1034 - 2 ^ 980 → Py.round53 n < 2 ^ 1034.
Proof.
  intros Hpos Hlt.
  assert (0 < 2 ^ 980) as HH by (by apply Z.pow_pos_nonneg).
  assert (2 ^ 1034 = 2 ^ 54 * 2 ^ 980) as E1034
    by (by rewrite <- Z.pow_add_r).
  unfold Py.round53.
  destruct (Z.leb_spec (Z.log2 n + 1) 53) as [Hb|Hb]; [lia|].
  pose proof (Z.log2_spec n Hpos) as [Hlo Hhi].
  assert (Z.log2 n < 1034) as Hlog by (apply Z.log2_lt_pow2; lia).
  pose proof (Z.log2_nonneg n) as Hnn.
  set (sh := Z.log2 n + 1 - 53) in *.
  assert (1 ≤ sh ≤ 981) as Hsh by lia.
  assert (0 < 2 ^ sh) as Hd by (apply Z.pow_pos_nonneg; lia).
  assert (2 ^ (Z.succ (Z.log2 n)) = 2 ^ 53 * 2 ^ sh) as Ebits.
  { rewrite <- Z.pow_add_r by lia. f_equal. lia. }
  rewrite Ebits in Hhi.
  pose proof (Z.div_mod n (2 ^ sh) ltac:(lia)) as Hdm.
  pose proof (Z.mod_pos_bound n (2 ^ sh) Hd) as Hr.
  assert (n / 2 ^ sh < 2 ^ 53) as Hq
    by (apply Z.div_lt_upper_bound; lia).
  unfold Py.div_half_even.
  set (q := n / 2 ^ sh) in *. set (r := n mod 2 ^ sh) in *.
  destruct (decide (sh = 981)) as [Hs|Hs].
  - rewrite Hs in *.
    assert (2 ^ 981 = 2 * 2 ^ 980) as E981 by (by rewrite <- Z.pow_succ_r).
    rewrite E1034, E981 in *. generalize dependent (2 ^ 980). intros H.
    intros. case_match eqn:Hc.
    + assert (2 * H ≤ 2 * r) as Hup.
      { apply orb_true_iff in Hc as [Hc|Hc]; [lia|].
        apply andb_true_iff in Hc as [Hc _]. lia. }
      assert (q ≤ 2 ^ 53 - 2) as Hq2 by nia.
      nia.
    + nia.
  - assert (2 ^ sh ≤ 2 ^ 980) as Hle by (apply Z.pow_le_mono_r; lia).
    rewrite E1034. generalize dependent (2 ^ 980). intros H.
    generalize dependent (2 ^ sh). intros d. intros.
    assert ((if (d <? 2 * r) || (d =? 2 * r) && Z.odd q then q + 1 else q) ≤ 2 ^ 53)
      by (case_match; lia).
    nia.
Qed.

Lemma truediv_1024_finite n :
  0 < n → n < 2 ^ 1034 - 2 ^ 980 →
  Py.truediv_1024 n = inr (Qmake (Py.round53 n) 1024).
Proof.
  intros Hpos Hlt. unfold Py.truediv_1024.
  rewrite Z.abs_eq, Z.sgn_pos, Z.mul_1_l by lia.
  pose proof (round53_bound n Hpos Hlt).
  destruct (Z.leb_spec (2 ^ 1034) (Py.round53 n)); [lia | reflexivity].
Qed.

(** The bound is the first size whose quotient no longer fits, and
    the rounding is the one of int-to-float conversion. *)
Example truediv_1024_first_overflow :
  Py.truediv_1024 (2 ^ 1034 - 2 ^ 980)
  = inl (Py.Exn "OverflowError"
           "integer division result too large for a float")
  ∧ Py.round53 (2 ^ 53 + 1) = 2 ^ 53
  ∧ Py.round53 (2 ^ 53 + 3) = 2 ^ 53 + 4.
Proof. repeat split; vm_compute; reflexivity. Qed.

(** ** The image loop of the performance check *)

Lemma startswith_truthy s p :
  Py.truthy p = true → Py.startswith s p = true → Py.truthy s = true.
Proof. destruct p, s; simpl; done. Qed.

(** One iteration on an image with an absolute src whose HEAD request
    returned: the size test, then the conversion to kilobytes inside the
    [try]. *)
Lemma check_image_head w img src h self :
  Bs4.get img "src" = Some src →
  Py.startswith src "http" = true →
  requests_head w src = inr h →
  check_image w img self
  = try_except
      (size ← int_content_length h;
       if 500000 <? size
       then
         kb ← call (Py.truediv_1024 size);
         issues_append "performance"
           ("Image " +:+ src +:+ " is large (" +:+ Py.format_f 1 kb
            +:+ " KB). Optimize image size.")
       else pass)
      (λ _, pass) self.
Proof.
  intros Hsrc Hhttp Hhead. unfold check_image. rewrite Hsrc, Hhttp.
  rewrite (startswith_truthy src "http") by done. simpl.
  unfold try_except. erewrite bind_returns by (rewrite Hhead; reflexivity).
  reflexivity.
Qed.

(** [analyze_performance] is the load-time test followed by one
    iteration per img element of the page, in document order. *)
Lemma analyze_performance_loop w self d :
  soup self = Some d →
  is_Some (issues self !! "performance") →
  ∃ timing,
    analyze_performance w self
    = for_each (Bs4.find_all d "img") (check_image w)
        (emit "performance" timing self).
Proof.
  intros Hs Hk. unfold analyze_performance.
  erewrite bind_returns by reflexivity.
  destruct (load_time self) as [t|].
  - destruct (Py.float_gt t 3).
    + eexists. erewrite bind_returns by (by apply issues_append_emit).
      erewrite bind_returns by reflexivity. simpl. by rewrite Hs.
    + exists []. rewrite emit_nil by done.
      erewrite bind_returns by reflexivity.
      erewrite bind_returns by reflexivity. by rewrite Hs.
  - eexists. erewrite bind_returns by (by apply issues_append_emit).
    erewrite bind_returns by reflexivity. simpl. by rewrite Hs.
Qed.

(** C8, as amended. For an image with an absolute src whose HEAD request
    reports a Content-Length that [int] reads as [size]: up to 500000
    nothing is appended; above 500000, and as long as [size / 1024] is a
    finite float (size below 2^1034 - 2^980), exactly one finding is
    appended, naming the src and [size / 1024] printed with one decimal
    (the exact quotient when size is below 2^53); 500001 prints as 488.3. *)
Theorem oversized_image_finding (w : World) (img : Bs4.PageElement)
    (src : string) (size : Z) (self : WebsiteAudit) (l : list string) :
  Bs4.get img "src" = Some src →
  Py.startswith src "http" = true →
  requests_head w src = inr {| content_length := Some (inr size) |} →
  issues self !! "performance" = Some l →
  (size ≤ 500000 → check_image w img self = (Returns (), self))
  ∧ (500000 < size < 2 ^ 1034 - 2 ^ 980 →
     ∃ kb self',
       Py.truediv_1024 size = inr kb
       ∧ (size < 2 ^ 53 → kb = Qmake size 1024)
       ∧ check_image w img self = (Returns (), self')
       ∧ issues self' !! "performance"
         = Some (l ++ ["Image " +:+ src +:+ " is large ("
                       +:+ Py.format_f 1 kb +:+ " KB). Optimize image size."]))
  ∧ Py.format_f 1 (Qmake 500001 1024) = "488.3".
Proof.
  intros Hsrc Hhttp Hhead Hl.
  rewrite (check_image_head w img src _ self Hsrc Hhttp Hhead).
  unfold try_except, int_content_length. simpl.
  split; [|split].
  - intros Hle. erewrite bind_returns by reflexivity.
    destruct (Z.ltb_spec 500000 size); [lia | reflexivity].
  - intros [Hgt Hlt]. exists (Qmake (Py.round53 size) 1024).
    exists (emit "performance"
              ["Image " +:+ src +:+ " is large ("
               +:+ Py.format_f 1 (Qmake (Py.round53 size) 1024)
               +:+ " KB). Optimize image size."] self).
    split; [apply truediv_1024_finite; lia|].
    split; [intros H53; rewrite round53_small by lia; reflexivity|].
    split; [|by apply lookup_emit_eq].
    erewrite bind_returns by reflexivity.
    destruct (Z.ltb_spec 500000 size); [|lia].
    erewrite bind_returns
      by (rewrite truediv_1024_finite by lia; reflexivity).
    rewrite issues_append_emit by eauto. reflexivity.
  - vm_compute. reflexivity.
Qed.

Lemma oversized_image_finding_witness :
  ∃ self',
    check_image (world_serving 200 [] page_image (Some (inr 500001)))
      image_a (__init__ "http://x/") = (Returns (), self')
    ∧ issues self' !! "performance"
      = Some ["Image http://x/a.png is large (488.3 KB). Optimize image size."].
Proof.
  destruct (oversized_image_finding
              (world_serving 200 [] page_image (Some (inr 500001)))
              image_a "http://x/a.png" 500001 (__init__ "http://x/") []
              eq_refl eq_refl eq_refl eq_refl) as (_ & Hbig & _).
  destruct Hbig as (kb & self' & Hkb & _ & Hrun & Hfind).
  { split; [lia|]. vm_compute. reflexivity. }
  exists self'. split; [exact Hrun|].
  rewrite Hfind. vm_compute in Hkb. inversion Hkb; subst kb.
  vm_compute. reflexivity.
Defined.

(** The claim as first stated fails above the float range: a
    Content-Length of 2^1034 exceeds 500000, yet the conversion to
    kilobytes raises inside the [try] and nothing is reported. *)
Lemma huge_image_not_reported :
  Bs4.get image_a "src" = Some "http://x/a.png"
  ∧ requests_head world_huge_image "http://x/a.png"
    = inr {| content_length := Some (inr (2 ^ 1034)) |}
  ∧ 500000 < 2 ^ 1034
  ∧ check_image world_huge_image image_a (__init__ "http://x/")
    = (Returns (), __init__ "http://x/")
  ∧ ∃ r, audit world_huge_image "http://x/" = Returns r
         ∧ r !! "performance" = Some [].
Proof.
  split; [reflexivity|]. split; [reflexivity|].
  split; [vm_compute; reflexivity|]. split; [vm_compute; reflexivity|].
  eexists. split; vm_compute; reflexivity.
Qed.

(** C10. A HEAD response without Content-Length is read as size 0, and
    the iteration on that image appends nothing. *)
Theorem missing_content_length_is_zero (w : World) (img : Bs4.PageElement)
    (src : string) (self : WebsiteAudit) :
  Bs4.get img "src" = Some src →
  Py.startswith src "http" = true →
  requests_head w src = inr {| content_length := None |} →
  int_content_length {| content_length := None |} self = (Returns 0, self)
  ∧ check_image w img self = (Returns (), self).
Proof.
  intros Hsrc Hhttp Hhead. split; [reflexivity|].
  rewrite (check_image_head w img src _ self Hsrc Hhttp Hhead).
  reflexivity.
Qed.

Lemma missing_content_length_is_zero_witness :
  check_image (world_serving 200 [] page_image None) image_a
    (__init__ "http://x/")
  = (Returns (), __init__ "http://x/").
Proof.
  apply (missing_content_length_is_zero
           (world_serving 200 [] page_image None) image_a "http://x/a.png");
    reflexivity.
Defined.

(** ** The fetch *)

Lemma fetch_website_got w self r t :
  requests_get w (url self) = inr (r, t) →
  is_Some (issues self !! "performance") →
  ∃ self',
    fetch_website w self = (Returns (), self')
    ∧ response self' = Some r
    ∧ load_time self' = Some t
    ∧ url self' = url self
    ∧ ∀ k, k ≠ "performance" → issues self' !! k = issues self !! k.
Proof.
  intros Hget Hk. unfold fetch_website, try_except.
  erewrite bind_returns by reflexivity. rewrite Hget.
  erewrite bind_returns by reflexivity.
  erewrite bind_returns by reflexivity.
  erewrite bind_returns by reflexivity.
  erewrite bind_returns by reflexivity. simpl.
  destruct (status_code r =? 200).
  - destruct (parsed r) as [e|d].
    + erewrite bind_raises by reflexivity.
      rewrite issues_append_emit by done. eexists. split; [reflexivity|].
      repeat split. intros k Hne. by rewrite lookup_emit_ne by congruence.
    + erewrite bind_returns by reflexivity. eexists. split; [reflexivity|].
      by repeat split.
  - rewrite issues_append_emit by done. eexists. split; [reflexivity|].
    repeat split. intros k Hne. by rewrite lookup_emit_ne by congruence.
Qed.

(** ** Security *)

Lemma missing_header_emit key finding hs self :
  is_Some (issues self !! "security") →
  missing_header key finding hs self
  = (Returns (),
     emit "security" (if header_in key hs then [] else [finding]) self).
Proof.
  intros Hk. unfold missing_header. destruct (header_in key hs); simpl.
  - by rewrite emit_nil.
  - by apply issues_append_emit.
Qed.

(** The certificate block never reports a valid certificate: [hostname]
    is the list [split] returns, which the [ssl] module rejects. *)
Lemma certificate_probe_always_fails w self :
  is_Some (issues self !! "security") →
  ∃ msg,
    try_except
      (part ← index (Py.split (url self) "//") 1;
       let hostname := Py.List (Py.split part "/") in
       not_after ← call (ssl_not_after w hostname);
       issues_append "security" ("SSL certificate valid until " +:+ not_after))
      (λ e, issues_append "security"
              ("SSL certificate check failed: " +:+ Py.exn_str e)) self
    = (Returns (),
       emit "security" ["SSL certificate check failed: " +:+ msg] self).
Proof.
  intros Hk. unfold index.
  destruct (Py.split (url self) "//" !! 1%nat) as [part|].
  - eexists. erewrite try_raises; [by apply issues_append_emit|].
    erewrite bind_returns by reflexivity. reflexivity.
  - eexists. erewrite try_raises; [by apply issues_append_emit|].
    reflexivity.
Qed.

(** With a response whose truth value is true, the security check
    appends one finding for the scheme or the certificate, then one per
    missing header. *)
Lemma analyze_security_response w self r :
  response self = Some r →
  Response_bool r = true →
  is_Some (issues self !! "security") →
  ∃ first,
    analyze_security w self
    = (Returns (),
       emit "security" (first :: missing_header_findings (headers r)) self)
    ∧ if Py.startswith (url self) "https://"
      then ∃ msg, first = "SSL certificate check failed: " +:+ msg
      else first = "Website does not use HTTPS. Enable HTTPS for security.".
Proof.
  intros Hr Hb Hk. unfold analyze_security.
  erewrite bind_returns by reflexivity.
  unfold not_response. rewrite Hr, Hb. simpl.
  assert (∃ first,
    (if negb (Py.startswith (url self) "https://")
     then issues_append "security"
            "Website does not use HTTPS. Enable HTTPS for security."
     else
       try_except
         (part ← index (Py.split (url self) "//") 1;
          let hostname := Py.List (Py.split part "/") in
          not_after ← call (ssl_not_after w hostname);
          issues_append "security"
            ("SSL certificate valid until " +:+ not_after))
         (λ e, issues_append "security"
                 ("SSL certificate check failed: " +:+ Py.exn_str e))) self
    = (Returns (), emit "security" [first] self)
    ∧ if Py.startswith (url self) "https://"
      then ∃ msg, first = "SSL certificate check failed: " +:+ msg
      else first = "Website does not use HTTPS. Enable HTTPS for security.")
    as (first & Hfirst & Hshape).
  { destruct (Py.startswith (url self) "https://"); simpl.
    - destruct (certificate_probe_always_fails w self Hk) as [msg Hmsg].
      exists ("SSL certificate check failed: " +:+ msg). eauto.
    - eexists. split; [by apply issues_append_emit | reflexivity]. }
  exists first. split; [|exact Hshape].
  erewrite bind_returns by exact Hfirst.
  erewrite bind_returns by reflexivity.
  erewrite bind_returns
    by (apply missing_header_emit; by apply emit_is_Some).
  erewrite bind_returns
    by (apply missing_header_emit; by do 2 apply emit_is_Some).
  rewrite missing_header_emit by (by do 3 apply emit_is_Some).
  rewrite !emit_emit. reflexivity.
Qed.

Lemma ao_after_security w :
  append_only
    (analyze_performance w;; analyze_seo;; analyze_accessibility;;
     self ← get_self; mret (issues self)).
Proof.
  apply ao_bind; [apply ao_analyze_performance | intros _].
  apply ao_bind; [apply ao_analyze_seo | intros _].
  apply ao_bind; [apply ao_analyze_accessibility | intros _].
  apply ao_bind; [apply ao_get_self | intros self; apply ao_ret].
Qed.

Lemma startswith_http_not_https u :
  Py.startswith ("http://" +:+ u) "https://" = false.
Proof. reflexivity. Qed.

(** C5, as amended. A target that does not begin with "http" is stored
    with "http://" in front; no method changes the stored URL; and when
    the GET returns a response whose truth value is true (status outside
    400-599), the security list of the run begins with the finding that
    asks for HTTPS. *)
Theorem default_scheme_then_https_finding (w : World) (u : string)
    (r : Response) (t : Q) :
  Py.startswith u "http" = false →
  requests_get w ("http://" +:+ u) = inr (r, t) →
  Response_bool r = true →
  url (__init__ u) = "http://" +:+ u
  ∧ (∀ op self, op ∈ operations w → url (snd (op self)) = url self)
  ∧ url (snd (run_audit w (__init__ u))) = "http://" +:+ u
  ∧ ∃ rest,
      issues (snd (run_audit w (__init__ u))) !! "security"
      = Some ("Website does not use HTTPS. Enable HTTPS for security."
              :: rest).
Proof.
  intros Hpre Hget Hok.
  assert (url (__init__ u) = "http://" +:+ u) as Hurl
    by (unfold __init__; simpl; by rewrite Hpre).
  split; [exact Hurl|].
  split; [intros op self Hop; by destruct (ao_operations w op Hop self)|].
  rewrite <- Hurl in Hget.
  destruct (fetch_website_got w (__init__ u) r t Hget ltac:(bound))
    as (s1 & Hfetch & Hresp & _ & Hurl1 & Hiss1).
  assert (issues s1 !! "security" = Some []) as Hsec1.
  { rewrite Hiss1 by done. apply init_lookup. unfold categories. set_solver. }
  destruct (analyze_security_response w s1 r Hresp Hok ltac:(eauto))
    as (first & Hsec & Hfirst).
  rewrite Hurl1, Hurl, startswith_http_not_https in Hfirst. subst first.
  unfold run_audit.
  erewrite bind_returns by exact Hfetch.
  erewrite bind_returns by exact Hsec.
  match goal with
  | |- context [snd (?m ?s)] =>
      pose proof (ao_after_security w s) as (Hu & _ & Hgrow)
  end.
  split.
  - rewrite Hu. simpl. congruence.
  - edestruct Hgrow as [l' Hl']; [by apply lookup_emit_eq|].
    rewrite Hl'. simpl. eauto.
Qed.

Lemma default_scheme_then_https_finding_witness :
  url (__init__ "example.com") = "http://example.com"
  ∧ ∃ rest,
      issues (snd (run_audit (world_serving 200 [] page_plain None)
                     (__init__ "example.com"))) !! "security"
      = Some ("Website does not use HTTPS. Enable HTTPS for security."
              :: rest).
Proof.
  destruct (default_scheme_then_https_finding
              (world_serving 200 [] page_plain None) "example.com"
              {| status_code := 200; headers := []; parsed := inr page_plain |}
              (1 # 2)%Q eq_refl eq_refl eq_refl) as (Hu & _ & _ & Hs).
  split; [exact Hu | exact Hs].
Defined.

(** The claim as first stated fails when the GET raises: the target is
    normalized, but the security check only reports the missing
    response. *)
Lemma unreachable_target_gets_no_https_finding :
  Py.startswith "example.com" "http" = false
  ∧ url (__init__ "example.com") = "http://example.com"
  ∧ ∃ fs,
      issues (snd (run_audit world_unreachable (__init__ "example.com")))
        !! "security" = Some fs
      ∧ fs = ["No response from server to analyze security."]
      ∧ "Website does not use HTTPS. Enable HTTPS for security." ∉ fs.
Proof.
  split; [reflexivity|]. split; [reflexivity|].
  eexists. split; [vm_compute; reflexivity|]. split; [reflexivity|].
  intros H. apply list_elem_of_singleton in H. discriminate H.
Qed.

(** A name without a scheme that happens to begin with "http" is stored
    as it is. *)
Example init_httpbin : url (__init__ "httpbin.org") = "httpbin.org".
Proof. reflexivity. Qed.

(** ** Runs on which the code departs from its description *)

(** C1: the code at an https target answering 200 with the three headers
    and presenting a valid certificate. The single security finding is
    the failure of the certificate check, not the expiry date: the block
    hands the list ["example.com"] to the [ssl] module as host name. *)
Theorem valid_certificate_reported_as_failure :
  peer_cert_not_after world_https_clean "example.com"
  = inr "Jun  1 12:00:00 2030 GMT"
  ∧ missing_header_findings security_headers = []
  ∧ (part ← Py.split "https://example.com" "//" !! 1%nat;
     Some (Py.split part "/")) = Some ["example.com"]
  ∧ ∃ r, audit world_https_clean "https://example.com" = Returns r
      ∧ r !! "security"
        = Some ["SSL certificate check failed: 'list' object has no attribute 'decode'"].
Proof.
  split; [reflexivity|]. split; [reflexivity|].
  split; [reflexivity|].
  eexists. split; vm_compute; reflexivity.
Qed.

(** C2: the code at a target answering 404 without any of the three
    headers. The security list is the placeholder for a missing response
    and holds none of the three header findings. *)
Theorem status_404_gets_no_response_placeholder :
  ∃ r, audit world_404 "http://example.com" = Returns r
    ∧ r !! "performance" = Some ["Page returned status code 404"]
    ∧ r !! "security"
      = Some ["No response from server to analyze security."]
    ∧ missing_header_findings []
      = ["Missing Content-Security-Policy header. Protects against XSS.";
         "Missing X-Content-Type-Options header to prevent MIME-sniffing.";
         "Missing Strict-Transport-Security header to enforce HTTPS."].
Proof.
  eexists. split; [vm_compute; reflexivity|].
  repeat split; vm_compute; reflexivity.
Qed.

(** C3: the code on a page whose title element is empty. [run_audit]
    raises to its caller instead of returning a report. *)
Theorem empty_title_raises :
  audit world_empty_title "http://example.com"
  = Raises (Py.Exn "AttributeError"
              "'NoneType' object has no attribute 'strip'").
Proof. vm_compute. reflexivity. Qed.

(** C7: the code on a parsed page with an empty title element and no h1.
    The SEO check raises at the title test and appends nothing, so the
    finding for a missing h1 is not emitted. *)
Theorem empty_title_hides_h1_finding :
  length (Bs4.find_all page_empty_title "h1") = 0%nat
  ∧ fst (analyze_seo
           (with_soup page_empty_title (__init__ "http://example.com")))
    = Raises (Py.Exn "AttributeError"
                "'NoneType' object has no attribute 'strip'")
  ∧ issues (snd (analyze_seo
                   (with_soup page_empty_title
                      (__init__ "http://example.com")))) !! "seo"
    = Some [].
Proof. repeat split; vm_compute; reflexivity. Qed.

(** ** SEO: the h1 test when the title test returns *)

Lemma title_missing_or_empty_state d self :
  snd (title_missing_or_empty d self) = self.
Proof.
  unfold title_missing_or_empty.
  destruct (Bs4.find d "title") as [t|]; [|reflexivity].
  destruct (Bs4.string t); reflexivity.
Qed.

(** Whenever the title test returns, the SEO check returns, and its
    findings hold the finding for a missing h1 exactly when there is no
    h1 and the finding for several h1 exactly when there are two or
    more. *)
Lemma analyze_seo_h1_findings self d l b :
  soup self = Some d →
  issues self !! "seo" = Some l →
  fst (title_missing_or_empty d self) = Returns b →
  ∃ self' fs,
    analyze_seo self = (Returns (), self')
    ∧ issues self' !! "seo" = Some (l ++ fs)
    ∧ ("No <h1> tag found." ∈ fs ↔ length (Bs4.find_all d "h1") = 0%nat)
    ∧ ("Multiple <h1> tags found." ∈ fs
       ↔ (1 < length (Bs4.find_all d "h1"))%nat).
Proof.
  intros Hs Hl Hb.
  assert (title_missing_or_empty d self = (Returns b, self)) as Ht.
  { pose proof (title_missing_or_empty_state d self) as Hst.
    destruct (title_missing_or_empty d self) as [o s']. simpl in *.
    congruence. }
  assert (is_Some (issues self !! "seo")) as Hk by eauto.
  unfold analyze_seo. erewrite bind_returns by reflexivity. rewrite Hs.
  erewrite bind_returns by exact Ht.
  set (f1 := if b then ["Missing or empty <title> tag."] else []).
  assert ((if b then issues_append "seo" "Missing or empty <title> tag."
           else pass) self = (Returns (), emit "seo" f1 self)) as H1.
  { unfold f1. destruct b; [by apply issues_append_emit|].
    by rewrite emit_nil. }
  erewrite bind_returns by exact H1.
  set (f2 := match Bs4.find_attr d "meta" "name" "description" with
             | None => ["Missing meta description tag."]
             | Some _ => []
             end).
  assert ((match Bs4.find_attr d "meta" "name" "description" with
           | None => issues_append "seo" "Missing meta description tag."
           | Some _ => pass
           end) (emit "seo" f1 self)
          = (Returns (), emit "seo" f2 (emit "seo" f1 self))) as H2.
  { unfold f2. destruct (Bs4.find_attr d "meta" "name" "description").
    - rewrite emit_nil; [done | by apply emit_is_Some].
    - apply issues_append_emit. by apply emit_is_Some. }
  erewrite bind_returns by exact H2.
  set (n := length (Bs4.find_all d "h1")).
  set (f3 := if (n =? 0)%nat then ["No <h1> tag found."]
             else if (1 <? n)%nat then ["Multiple <h1> tags found."]
                  else []).
  exists (emit "seo" (f1 ++ f2 ++ f3) self), (f1 ++ f2 ++ f3).
  split.
  { cbv zeta. fold n. unfold f3. rewrite <- !emit_emit.
    destruct (Nat.eqb_spec n 0).
    - apply issues_append_emit. by do 2 apply emit_is_Some.
    - destruct (Nat.ltb_spec 1 n).
      + apply issues_append_emit. by do 2 apply emit_is_Some.
      + rewrite (emit_nil _ (emit _ _ (emit _ _ _)));
          [done | by do 2 apply emit_is_Some]. }
  split; [by apply lookup_emit_eq|].
  assert (∀ x, x ∈ f1 → x = "Missing or empty <title> tag.") as Hf1.
  { intros x. unfold f1. destruct b; intros Hx;
      [by apply list_elem_of_singleton in Hx | by apply elem_of_nil in Hx]. }
  assert (∀ x, x ∈ f2 → x = "Missing meta description tag.") as Hf2.
  { intros x. unfold f2. destruct (Bs4.find_attr _ _ _ _); intros Hx;
      [by apply elem_of_nil in Hx | by apply list_elem_of_singleton in Hx]. }
  split; rewrite !elem_of_app; unfold f3;
    destruct (Nat.eqb_spec n 0) as [Hn0|Hn0];
    try destruct (Nat.ltb_spec 1 n) as [Hn1|Hn1];
    (split;
     [ intros [H|[H|H]];
       [ apply Hf1 in H; discriminate H
       | apply Hf2 in H; discriminate H
       | first [ lia | apply list_elem_of_singleton in H; discriminate H
               | by apply elem_of_nil in H ] ]
     | intros H; first [ lia | right; right; by apply list_elem_of_singleton ] ]).
Qed.

(** * Further properties of the methods *)

(** ** White space and the title test *)

Lemma truthy_rev_app a b :
  Py.truthy (String.rev_app a b) = Py.truthy a || Py.truthy b.
Proof.
  revert b. induction a as [|c a IH]; intros b; simpl; [reflexivity|].
  rewrite IH. simpl. by rewrite orb_true_r.
Qed.

Lemma all_space_rev_app a b :
  all_space (String.rev_app a b) = all_space a && all_space b.
Proof.
  revert b. induction a as [|c a IH]; intros b; simpl; [reflexivity|].
  rewrite IH. simpl. destruct (Py.isspace c), (all_space a); simpl; auto.
Qed.

Lemma lstrip_truthy s : Py.truthy (Py.lstrip s) = negb (all_space s).
Proof.
  induction s as [|c s IH]; simpl; [reflexivity|].
  destruct (Py.isspace c); simpl; [exact IH | reflexivity].
Qed.

Lemma all_space_lstrip s : all_space (Py.lstrip s) = all_space s.
Proof.
  induction s as [|c s IH]; simpl; [reflexivity|].
  destruct (Py.isspace c) eqn:Hc; simpl; [exact IH | by rewrite Hc].
Qed.

Lemma truthy_nil_all_space s : Py.truthy s = false → all_space s = true.
Proof. by destruct s. Qed.

(** [not s.strip()] holds exactly for the strings made of white space. *)
Lemma strip_truthy s : Py.truthy (Py.strip s) = negb (all_space s).
Proof.
  unfold Py.strip, String.rev. rewrite truthy_rev_app, orb_false_r.
  rewrite lstrip_truthy, all_space_rev_app, andb_true_r.
  by rewrite all_space_lstrip.
Qed.

Lemma title_missing_or_empty_spec d self :
  title_missing_or_empty d self
  = if title_without_string d
    then (Raises (Py.Exn "AttributeError"
                    "'NoneType' object has no attribute 'strip'"), self)
    else (Returns (bool_decide (title_finding d ≠ [])), self).
Proof.
  unfold title_missing_or_empty, title_without_string, title_finding.
  destruct (Bs4.find d "title") as [t|]; [|reflexivity].
  destruct (Bs4.string t) as [s|]; [|reflexivity].
  unfold mret, M_ret. rewrite strip_truthy, negb_involutive.
  by destruct (all_space s).
Qed.

(** ** Exact effect of each analysis *)

Lemma analyze_seo_parsed self d :
  soup self = Some d →
  is_Some (issues self !! "seo") →
  analyze_seo self
  = if title_without_string d
    then (Raises (Py.Exn "AttributeError"
                    "'NoneType' object has no attribute 'strip'"), self)
    else (Returns (),
          emit "seo" (title_finding d ++ meta_finding d ++ h1_finding d) self).
Proof.
  intros Hs Hk. unfold analyze_seo.
  erewrite bind_returns by reflexivity. rewrite Hs.
  pose proof (title_missing_or_empty_spec d self) as Ht.
  destruct (title_without_string d).
  { by erewrite bind_raises by exact Ht. }
  erewrite bind_returns by exact Ht.
  assert ((if bool_decide (title_finding d ≠ [])
           then issues_append "seo" "Missing or empty <title> tag."
           else pass) self
          = (Returns (), emit "seo" (title_finding d) self)) as H1.
  { unfold title_finding.
    destruct (Bs4.find d "title") as [t|]; simpl;
      [|by apply issues_append_emit].
    destruct (Bs4.string t) as [s|]; simpl; [|by rewrite emit_nil].
    destruct (all_space s); simpl;
      [by apply issues_append_emit | by rewrite emit_nil]. }
  erewrite bind_returns by exact H1.
  assert ((match Bs4.find_attr d "meta" "name" "description" with
           | None => issues_append "seo" "Missing meta description tag."
           | Some _ => pass
           end) (emit "seo" (title_finding d) self)
          = (Returns (),
             emit "seo" (meta_finding d) (emit "seo" (title_finding d) self)))
    as H2.
  { unfold meta_finding.
    destruct (Bs4.find_attr d "meta" "name" "description").
    - rewrite emit_nil; [done | by apply emit_is_Some].
    - apply issues_append_emit. by apply emit_is_Some. }
  erewrite bind_returns by exact H2.
  cbv zeta. rewrite <- !emit_emit. unfold h1_finding.
  destruct (length (Bs4.find_all d "h1")) as [|[|n]]; simpl.
  - apply issues_append_emit. by do 2 apply emit_is_Some.
  - rewrite (emit_nil _ (emit _ _ (emit _ _ _)));
      [done | by do 2 apply emit_is_Some].
  - apply issues_append_emit. by do 2 apply emit_is_Some.
Qed.

Lemma check_image_emit w img self :
  is_Some (issues self !! "performance") →
  ∃ fs, (length fs ≤ 1)%nat
        ∧ check_image w img self = (Returns (), emit "performance" fs self).
Proof.
  intros Hk.
  assert (∃ fs, (length fs ≤ 1)%nat
                ∧ (Returns (), self) = (Returns (), emit "performance" fs self))
    as Hnone by (exists []; split; [simpl; lia | by rewrite emit_nil]).
  unfold check_image.
  destruct (Bs4.get img "src") as [src|]; [|exact Hnone].
  destruct (Py.truthy src && Py.startswith src "http"); [|exact Hnone].
  unfold int_content_length.
  unfold try_except, mbind, M_bind, call, raise, mret, M_ret, pass.
  destruct (requests_head w src) as [e|h]; simpl; [exact Hnone|].
  destruct (content_length h) as [[e|size]|]; simpl;
    [exact Hnone| |exact Hnone].
  destruct (500000 <? size); simpl; [|exact Hnone].
  destruct (Py.truediv_1024 size) as [e|kb]; simpl; [exact Hnone|].
  rewrite issues_append_emit by done. eexists. split; [|reflexivity].
  simpl. lia.
Qed.

Lemma for_each_check_image_emit w imgs self :
  is_Some (issues self !! "performance") →
  ∃ fs, (length fs ≤ length imgs)%nat
        ∧ for_each imgs (check_image w) self
          = (Returns (), emit "performance" fs self).
Proof.
  revert self. induction imgs as [|img imgs IH]; intros self Hk; simpl.
  - exists []. split; [simpl; lia | by rewrite emit_nil].
  - destruct (check_image_emit w img self Hk) as (f1 & Hlen1 & H1).
    destruct (IH (emit "performance" f1 self) ltac:(by apply emit_is_Some))
      as (f2 & Hlen2 & H2).
    exists (f1 ++ f2). split; [rewrite length_app; lia|].
    erewrite bind_returns by exact H1. rewrite H2. by rewrite emit_emit.
Qed.

Lemma analyze_performance_emit w self :
  is_Some (issues self !! "performance") →
  ∃ fs,
    (length fs
     ≤ length (match soup self with
               | Some d => Bs4.find_all d "img"
               | None => []
               end))%nat
    ∧ analyze_performance w self
      = (Returns (),
         emit "performance" (load_time_finding (load_time self) ++ fs) self).
Proof.
  intros Hk. unfold analyze_performance.
  erewrite bind_returns by reflexivity.
  assert ((match load_time self with
           | Some t =>
               if Py.float_gt t 3
               then issues_append "performance"
                      ("Page load time is " +:+ Py.format_f 2 t
                       +:+ "s. Aim for under 3 seconds.")
               else pass
           | None =>
               issues_append "performance"
                 "Page load time could not be measured."
           end) self
          = (Returns (),
             emit "performance" (load_time_finding (load_time self)) self))
    as Ht.
  { unfold load_time_finding. destruct (load_time self) as [t|].
    - destruct (Py.float_gt t 3);
        [by apply issues_append_emit | by rewrite emit_nil].
    - by apply issues_append_emit. }
  erewrite bind_returns by exact Ht.
  erewrite bind_returns by reflexivity. cbv zeta.
  change (soup (emit "performance" (load_time_finding (load_time self)) self))
    with (soup self).
  destruct (for_each_check_image_emit w
              (match soup self with
               | Some d => Bs4.find_all d "img"
               | None => []
               end)
              (emit "performance" (load_time_finding (load_time self)) self)
              ltac:(by apply emit_is_Some)) as (fs & Hlen & Hfs).
  exists fs. split; [exact Hlen|]. rewrite Hfs. by rewrite emit_emit.
Qed.

Lemma startswith_app s p :
  Py.startswith s p = true → ∃ rest, s = p +:+ rest.
Proof.
  revert s. induction p as [|c p IH]; intros s H.
  - by exists s.
  - destruct s as [|d s]; [discriminate H|].
    unfold Py.startswith in H; fold Py.startswith in H.
    destruct (decide (c = d)) as [->|]; [|discriminate H].
    destruct (IH s H) as [rest ->]. by exists rest.
Qed.

Lemma split_go_cons sep k cur s : ∃ x l, Py.split_go sep k cur s = x :: l.
Proof.
  revert k cur. induction s as [|c s IH]; intros k cur; simpl; [eauto|].
  destruct k; [|apply IH].
  destruct (Py.startswith (String c s) sep); [eauto | apply IH].
Qed.

Lemma startswith_nil s : Py.startswith s "" = true.
Proof. by destruct s. Qed.

Lemma startswith_cons c d s p :
  Py.startswith (String d s) (String c p)
  = if decide (c = d) then Py.startswith s p else false.
Proof. reflexivity. Qed.

Lemma split_go_step sep cur c s :
  Py.split_go sep 0 cur (String c s)
  = if Py.startswith (String c s) sep
    then cur :: Py.split_go sep (Nat.pred (String.length sep)) "" s
    else Py.split_go sep 0 (cur +:+ String c "") s.
Proof. reflexivity. Qed.

Lemma split_https_eq rest :
  Py.split ("https://" +:+ rest) "//"
  = "https:" :: Py.split_go "//" 0 "" rest.
Proof.
  unfold Py.split. cbv [String.append].
  do 6 (rewrite split_go_step, startswith_cons;
        case_decide; [discriminate|]).
  rewrite split_go_step, !startswith_cons.
  repeat (case_decide; [|done]). rewrite startswith_nil.
  reflexivity.
Qed.

(** For a target that begins with "https://" the piece after the first
    "//" always exists: the certificate block never fails on the index. *)
Lemma split_https_second u :
  Py.startswith u "https://" = true →
  ∃ part, Py.split u "//" !! 1%nat = Some part.
Proof.
  intros H. apply startswith_app in H as [rest ->].
  rewrite split_https_eq.
  destruct (split_go_cons "//" 0 "" rest) as (x & l & ->). by exists x.
Qed.

Lemma certificate_block_https w self :
  Py.startswith (url self) "https://" = true →
  is_Some (issues self !! "security") →
  try_except
    (part ← index (Py.split (url self) "//") 1;
     let hostname := Py.List (Py.split part "/") in
     not_after ← call (ssl_not_after w hostname);
     issues_append "security" ("SSL certificate valid until " +:+ not_after))
    (λ e, issues_append "security"
            ("SSL certificate check failed: " +:+ Py.exn_str e)) self
  = (Returns (),
     emit "security"
       ["SSL certificate check failed: 'list' object has no attribute 'decode'"]
       self).
Proof.
  intros Hu Hk. destruct (split_https_second _ Hu) as [part Hpart].
  unfold index. rewrite Hpart.
  erewrite try_raises.
  2: { erewrite bind_returns by reflexivity. reflexivity. }
  by apply issues_append_emit.
Qed.

(** The finding of the scheme test and certificate block. *)
Lemma scheme_block_emit w self :
  is_Some (issues self !! "security") →
  (if negb (Py.startswith (url self) "https://")
   then issues_append "security"
          "Website does not use HTTPS. Enable HTTPS for security."
   else
     try_except
       (part ← index (Py.split (url self) "//") 1;
        let hostname := Py.List (Py.split part "/") in
        not_after ← call (ssl_not_after w hostname);
        issues_append "security"
          ("SSL certificate valid until " +:+ not_after))
       (λ e, issues_append "security"
               ("SSL certificate check failed: " +:+ Py.exn_str e))) self
  = (Returns (),
     emit "security"
       [if Py.startswith (url self) "https://"
        then "SSL certificate check failed: 'list' object has no attribute 'decode'"
        else "Website does not use HTTPS. Enable HTTPS for security."]
       self).
Proof.
  intros Hk. destruct (Py.startswith (url self) "https://") eqn:Hu; simpl.
  - by apply (certificate_block_https w).
  - by apply issues_append_emit.
Qed.

Lemma analyze_security_emit w self :
  is_Some (issues self !! "security") →
  analyze_security w self
  = (Returns (),
     emit "security"
       (match response self with
        | Some r =>
            if Response_bool r
            then (if Py.startswith (url self) "https://"
                  then "SSL certificate check failed: 'list' object has no attribute 'decode'"
                  else "Website does not use HTTPS. Enable HTTPS for security.")
                 :: missing_header_findings (headers r)
            else ["No response from server to analyze security."]
        | None => ["No response from server to analyze security."]
        end) self).
Proof.
  intros Hk. unfold analyze_security.
  erewrite bind_returns by reflexivity. unfold not_response.
  destruct (response self) as [r|] eqn:Hr; [|by apply issues_append_emit].
  destruct (Response_bool r); simpl; [|by apply issues_append_emit].
  erewrite bind_returns by (by apply (scheme_block_emit w)).
  erewrite bind_returns by reflexivity.
  erewrite bind_returns
    by (apply missing_header_emit; by apply emit_is_Some).
  erewrite bind_returns
    by (apply missing_header_emit; by do 2 apply emit_is_Some).
  rewrite missing_header_emit by (by do 3 apply emit_is_Some).
  rewrite !emit_emit. reflexivity.
Qed.

(** ** The run after the fetch *)

Lemma grows_is_Some s s' k :
  grows s s' → is_Some (issues s !! k) → is_Some (issues s' !! k).
Proof. intros (_ & _ & H) [l Hl]. destruct (H k l Hl) as [l' Hl']. eauto. Qed.

Lemma fetch_website_returns w self :
  is_Some (issues self !! "performance") →
  fst (fetch_website w self) = Returns ().
Proof.
  intros Hk. destruct (requests_get w (url self)) as [e|[r t]] eqn:Hget.
  - by rewrite (fetch_website_raises w self e Hget Hk).
  - destruct (fetch_website_got w self r t Hget Hk) as (s' & -> & _). done.
Qed.

(** What [run_audit] does once [fetch_website] has returned: the three
    lists of findings that do not depend on the page are appended, then
    the SEO check either raises on the title or the last two lists are
    appended and the report returned. *)
Lemma run_audit_from w s0 s1 :
  fetch_website w s0 = (Returns (), s1) →
  (∀ k, k ∈ categories → is_Some (issues s1 !! k)) →
  ∃ fp,
    (length fp ≤ length (images s1))%nat
    ∧ run_audit w s0
      = let s3 :=
          emit "performance" (load_time_finding (load_time s1) ++ fp)
            (emit "security" (security_list s1) s1) in
        match soup s1 with
        | Some d =>
            if title_without_string d
            then (Raises strip_on_none, s3)
            else
              let s5 :=
                emit "accessibility" (accessibility_list d)
                  (emit "seo"
                     (title_finding d ++ meta_finding d ++ h1_finding d) s3)
              in (Returns (issues s5), s5)
        | None =>
            let s5 :=
              emit "accessibility"
                ["HTML content could not be parsed. Accessibility check skipped."]
                (emit "seo"
                   ["HTML content could not be parsed. SEO check skipped."] s3)
            in (Returns (issues s5), s5)
        end.
Proof.
  intros Hfetch Hkeys.
  assert (is_Some (issues s1 !! "security")
          ∧ is_Some (issues s1 !! "performance")
          ∧ is_Some (issues s1 !! "seo")
          ∧ is_Some (issues s1 !! "accessibility")) as (Hsec & Hperf & Hseo & Hacc)
    by (repeat split; apply Hkeys; unfold categories; set_solver).
  destruct (analyze_performance_emit w (emit "security" (security_list s1) s1)
              ltac:(by apply emit_is_Some)) as (fp & Hlen & Hp).
  exists fp. split; [exact Hlen|].
  unfold run_audit.
  erewrite bind_returns by exact Hfetch.
  erewrite bind_returns by (by apply analyze_security_emit).
  erewrite bind_returns by exact Hp.
  cbv zeta.
  change (load_time (emit "security" (security_list s1) s1))
    with (load_time s1).
  set (s3 := emit "performance" (load_time_finding (load_time s1) ++ fp)
               (emit "security" (security_list s1) s1)).
  assert (soup s3 = soup s1) as Hsoup by reflexivity.
  destruct (soup s1) as [d|] eqn:Hd.
  - pose proof (analyze_seo_parsed s3 d Hsoup
                  ltac:(by do 2 apply emit_is_Some)) as Hs.
    destruct (title_without_string d).
    + by erewrite bind_raises by exact Hs.
    + erewrite bind_returns by exact Hs.
      erewrite bind_returns
        by (by apply (analyze_accessibility_emit _ d);
            [|do 3 apply emit_is_Some]).
      reflexivity.
  - erewrite bind_returns
      by (by apply analyze_seo_no_soup; [|do 2 apply emit_is_Some]).
    erewrite bind_returns
      by (by apply analyze_accessibility_no_soup; [|do 3 apply emit_is_Some]).
    reflexivity.
Qed.

Lemma init_keys_after_fetch w u s1 :
  fetch_website w (__init__ u) = (Returns (), s1) →
  ∀ k, k ∈ categories → is_Some (issues s1 !! k).
Proof.
  intros Hfetch k Hk.
  pose proof (ao_fetch_website w (__init__ u)) as Hg. rewrite Hfetch in Hg.
  eapply grows_is_Some; [exact Hg|]. by apply init_is_Some.
Qed.

(** The object [fetch_website] leaves when the GET returns. *)
Lemma fetch_website_cases w self r t :
  requests_get w (url self) = inr (r, t) →
  is_Some (issues self !! "performance") →
  fetch_website w self
  = (Returns (),
     if status_code r =? 200
     then match parsed r with
          | inr d => with_soup d (with_load_time t (with_response r self))
          | inl e =>
              emit "performance"
                ["Failed to fetch website: " +:+ Py.exn_str e]
                (with_load_time t (with_response r self))
          end
     else emit "performance"
            ["Page returned status code " +:+ pretty (status_code r)]
            (with_load_time t (with_response r self))).
Proof.
  intros Hget Hk. unfold fetch_website, try_except.
  erewrite bind_returns by reflexivity. rewrite Hget.
  erewrite bind_returns by reflexivity.
  erewrite bind_returns by reflexivity.
  erewrite bind_returns by reflexivity.
  erewrite bind_returns by reflexivity. simpl.
  destruct (status_code r =? 200).
  - destruct (parsed r) as [e|d].
    + erewrite bind_raises by reflexivity. by rewrite issues_append_emit.
    + by erewrite bind_returns by reflexivity.
  - by rewrite issues_append_emit.
Qed.

(** ** Construction *)

(** X1. The stored target always begins with "http", and building an
    object from a stored target gives the same object: the normalization
    of [__init__] is idempotent. *)
Theorem init_url_normalized (u : string) :
  Py.startswith (url (__init__ u)) "http" = true
  ∧ __init__ (url (__init__ u)) = __init__ u.
Proof.
  unfold __init__. simpl.
  destruct (Py.startswith u "http") eqn:Hu.
  - by rewrite Hu.
  - split; [reflexivity|].
    assert (Py.startswith ("http://" +:+ u) "http" = true) as ->
      by reflexivity.
    reflexivity.
Qed.

(** ** The fetch never raises *)

(** X2. [fetch_website] never raises. It leaves the target alone and
    appends at most one performance finding: none exactly when the GET
    returned status 200 and the body was parsed, in which case the page is
    stored; the status finding for another status; the failure finding
    when the GET or the parser raised. The response and the elapsed time
    are stored whenever the GET returned. *)
Theorem fetch_website_outcome (w : World) (self : WebsiteAudit)
    (l : list string) :
  issues self !! "performance" = Some l →
  ∃ self' fs,
    fetch_website w self = (Returns (), self')
    ∧ url self' = url self
    ∧ issues self' = <["performance" := l ++ fs]> (issues self)
    ∧ match requests_get w (url self) with
      | inl e =>
          fs = ["Failed to fetch website: " +:+ Py.exn_str e]
          ∧ response self' = response self
          ∧ load_time self' = load_time self
          ∧ soup self' = soup self
      | inr (r, t) =>
          response self' = Some r
          ∧ load_time self' = Some t
          ∧ if status_code r =? 200
            then match parsed r with
                 | inr d => fs = [] ∧ soup self' = Some d
                 | inl e =>
                     fs = ["Failed to fetch website: " +:+ Py.exn_str e]
                     ∧ soup self' = soup self
                 end
            else fs = ["Page returned status code "
                       +:+ pretty (status_code r)]
                 ∧ soup self' = soup self
      end.
Proof.
  intros Hl. assert (is_Some (issues self !! "performance")) as Hk by eauto.
  destruct (requests_get w (url self)) as [e|[r t]] eqn:Hget.
  - rewrite (fetch_website_raises w self e Hget Hk).
    eexists _, _. split; [reflexivity|]. split; [reflexivity|].
    split; [|done]. unfold emit. simpl. by rewrite Hl.
  - rewrite (fetch_website_cases w self r t Hget Hk).
    destruct (status_code r =? 200).
    + destruct (parsed r) as [e|d].
      * eexists _, _. split; [reflexivity|]. split; [reflexivity|].
        split; [|done]. unfold emit. simpl. by rewrite Hl.
      * exists (with_soup d (with_load_time t (with_response r self))), [].
        split; [reflexivity|]. split; [reflexivity|].
        split; [|done]. simpl. rewrite app_nil_r. by rewrite insert_id.
    + eexists _, _. split; [reflexivity|]. split; [reflexivity|].
      split; [|done]. unfold emit. simpl. by rewrite Hl.
Qed.

Lemma fetch_website_outcome_witness :
  ∃ self',
    fetch_website world_unparsable (__init__ "example.com")
    = (Returns (), self')
    ∧ issues self' !! "performance"
      = Some ["Failed to fetch website: bad markup"]
    ∧ soup self' = None.
Proof.
  destruct (fetch_website_outcome world_unparsable (__init__ "example.com")
              [] eq_refl) as (self' & fs & Hrun & _ & Hiss & _ & _ & Hfs & Hsoup).
  exists self'. split; [exact Hrun|]. split; [|exact Hsoup].
  rewrite Hiss, Hfs. reflexivity.
Defined.

(** ** Security *)




Lemma valid_until_absent_headers hs f :
  f ∈ missing_header_findings hs →
  Py.startswith f "SSL certificate valid until" = false.
Proof.
  unfold missing_header_findings. intros H.
  repeat (apply elem_of_app in H as [H|H] || idtac);
    match type of H with
    | _ ∈ (if ?b then _ else _) => destruct b
    end;
    first [ by apply elem_of_nil in H
          | apply list_elem_of_singleton in H as ->; reflexivity ].
Qed.

Lemma security_list_length self :
  (1 ≤ length (security_list self) ≤ 4)%nat.
Proof.
  unfold security_list, missing_header_findings.
  repeat case_match; simpl; lia.
Qed.

(** X4. The security check never raises and does not depend on the
    world: it appends between one and four findings, none of which
    reports a valid certificate, and for a response whose truth value is
    true and an https target the first of them is always the failure of
    the certificate check on the list host name, followed by the findings
    for the missing headers. *)
Theorem security_findings (w : World) (self : WebsiteAudit)
    (l : list string) :
  issues self !! "security" = Some l →
  ∃ self' fs,
    analyze_security w self = (Returns (), self')
    ∧ (∀ w', analyze_security w' self = (Returns (), self'))
    ∧ issues self' !! "security" = Some (l ++ fs)
    ∧ (1 ≤ length fs ≤ 4)%nat
    ∧ (∀ f, f ∈ fs → Py.startswith f "SSL certificate valid until" = false)
    ∧ (∀ r, response self = Some r → Response_bool r = true →
            Py.startswith (url self) "https://" = true →
            fs = "SSL certificate check failed: 'list' object has no attribute 'decode'"
                 :: missing_header_findings (headers r)).
Proof.
  intros Hl. assert (is_Some (issues self !! "security")) as Hk by eauto.
  exists (emit "security" (security_list self) self), (security_list self).
  split; [by apply analyze_security_emit|].
  split; [intros w'; by apply analyze_security_emit|].
  split; [by apply lookup_emit_eq|].
  split; [apply security_list_length|].
  split.
  - intros f. unfold security_list.
    destruct (response self) as [r|];
      [|intros H; apply list_elem_of_singleton in H as ->; reflexivity].
    destruct (Response_bool r);
      [|intros H; apply list_elem_of_singleton in H as ->; reflexivity].
    intros H. apply elem_of_cons in H as [->|H];
      [by destruct (Py.startswith (url self) "https://")|].
    by apply valid_until_absent_headers with (headers r).
  - intros r Hr Hb Hu. unfold security_list. by rewrite Hr, Hb, Hu.
Qed.

Lemma security_findings_witness :
  ∃ self',
    analyze_security world_https_clean
      (with_response
         {| status_code := 200; headers := []; parsed := inr page_plain |}
         (__init__ "https://example.com"))
    = (Returns (), self')
    ∧ issues self' !! "security"
      = Some ["SSL certificate check failed: 'list' object has no attribute 'decode'";
              "Missing Content-Security-Policy header. Protects against XSS.";
              "Missing X-Content-Type-Options header to prevent MIME-sniffing.";
              "Missing Strict-Transport-Security header to enforce HTTPS."].
Proof.
  destruct (security_findings world_https_clean
              (with_response
                 {| status_code := 200; headers := [];
                    parsed := inr page_plain |}
                 (__init__ "https://example.com")) [] eq_refl)
    as (self' & fs & Hrun & _ & Hiss & _ & _ & Hfs).
  exists self'. split; [exact Hrun|].
  rewrite Hiss, (Hfs _ eq_refl eq_refl eq_refl). reflexivity.
Defined.

(** ** Performance *)

Lemma float_gt_3 (t : Q) : Py.float_gt t 3 = true ↔ (3 < t)%Q.
Proof.
  unfold Py.float_gt, Qlt. simpl. rewrite Z.ltb_lt. lia.
Qed.

(** X5. The performance check never raises. It first appends the
    load-time finding: the one for an unmeasured time when [load_time]
    was never set, nothing for a time of at most 3 seconds (3 itself
    included), the slow-page finding with the time in two decimals above
    3 seconds. It then appends at most one finding per img element of
    the page. *)
Theorem performance_findings (w : World) (self : WebsiteAudit)
    (l : list string) :
  issues self !! "performance" = Some l →
  ∃ self' slow fp,
    analyze_performance w self = (Returns (), self')
    ∧ issues self' !! "performance" = Some (l ++ slow ++ fp)
    ∧ (length fp ≤ length (images self))%nat
    ∧ (load_time self = None →
       slow = ["Page load time could not be measured."])
    ∧ (∀ t, load_time self = Some t → (t <= 3)%Q → slow = [])
    ∧ (∀ t, load_time self = Some t → (3 < t)%Q →
       slow = ["Page load time is " +:+ Py.format_f 2 t
               +:+ "s. Aim for under 3 seconds."]).
Proof.
  intros Hl. assert (is_Some (issues self !! "performance")) as Hk by eauto.
  destruct (analyze_performance_emit w self Hk) as (fp & Hlen & Hrun).
  eexists _, (load_time_finding (load_time self)), fp.
  split; [exact Hrun|]. split; [by apply lookup_emit_eq|].
  split; [exact Hlen|].
  split; [by intros ->|].
  split; intros t -> Ht; unfold load_time_finding;
    destruct (Py.float_gt t 3) eqn:Hgt; try reflexivity.
  - apply float_gt_3 in Hgt. by apply Qlt_not_le in Hgt.
  - apply float_gt_3 in Ht. congruence.
Qed.

Lemma performance_findings_witness :
  ∃ self',
    analyze_performance world_unreachable
      (with_load_time (3 # 1)%Q (__init__ "example.com"))
    = (Returns (), self')
    ∧ issues self' !! "performance" = Some [].
Proof.
  destruct (performance_findings world_unreachable
              (with_load_time (3 # 1)%Q (__init__ "example.com")) [] eq_refl)
    as (self' & slow & fp & Hrun & Hiss & Hlen & _ & Hfast & _).
  exists self'. split; [exact Hrun|].
  rewrite Hiss, (Hfast _ eq_refl) by (unfold Qle; simpl; lia).
  destruct fp; [reflexivity | simpl in Hlen; lia].
Defined.

Lemma try_pass_returns (m : M unit) self :
  fst (try_except m (λ _, pass) self) = Returns ().
Proof. unfold try_except. by destruct (m self) as [[[]|e] s]. Qed.

(** X6. One iteration of the image loop never raises, whatever the world
    answers and whatever the object holds: even the exception of the
    append is caught. It changes nothing but the findings, to which it
    only appends. *)
Theorem image_check_never_raises (w : World) (img : Bs4.PageElement)
    (self : WebsiteAudit) :
  fst (check_image w img self) = Returns ()
  ∧ grows self (snd (check_image w img self))
  ∧ soup (snd (check_image w img self)) = soup self
  ∧ response (snd (check_image w img self)) = response self
  ∧ load_time (snd (check_image w img self)) = load_time self.
Proof.
  split.
  { unfold check_image. destruct (Bs4.get img "src") as [src|]; [|done].
    destruct (Py.truthy src && Py.startswith src "http"); [|done].
    apply try_pass_returns. }
  split; [apply ao_check_image|].
  destruct (issues self !! "performance") as [l|] eqn:Hl.
  - destruct (check_image_emit w img self ltac:(eauto)) as (fs & _ & ->).
    done.
  - assert (check_image w img self = (Returns (), self)) as ->; [|done].
    unfold check_image. destruct (Bs4.get img "src") as [src|]; [|done].
    destruct (Py.truthy src && Py.startswith src "http"); [|done].
    unfold int_content_length.
    unfold try_except, mbind, M_bind, call, raise, mret, M_ret, pass.
    destruct (requests_head w src) as [e|h]; simpl; [done|].
    destruct (content_length h) as [[e|size]|]; simpl; [done| |done].
    destruct (500000 <? size); simpl; [|done].
    destruct (Py.truediv_1024 size) as [e|kb]; simpl; [done|].
    unfold issues_append, mbind, M_bind, get_self, raise. by rewrite Hl.
Qed.

(** X7. An image is skipped without a finding, and without any change
    to the object, when its src is absent, empty or does not begin with
    "http" (no HEAD request is made: the result is the same in every
    world), when the HEAD request raises, and when [int] rejects the
    Content-Length. *)
Theorem image_check_skips (w : World) (img : Bs4.PageElement)
    (self : WebsiteAudit) :
  ((Bs4.get img "src" = None
    ∨ Bs4.get img "src" = Some ""
    ∨ ∃ src, Bs4.get img "src" = Some src
             ∧ Py.startswith src "http" = false) →
   ∀ w', check_image w' img self = (Returns (), self))
  ∧ (∀ src e, Bs4.get img "src" = Some src →
              Py.startswith src "http" = true →
              requests_head w src = inl e →
              check_image w img self = (Returns (), self))
  ∧ (∀ src e, Bs4.get img "src" = Some src →
              Py.startswith src "http" = true →
              requests_head w src = inr {| content_length := Some (inl e) |} →
              check_image w img self = (Returns (), self)).
Proof.
  split; [|split].
  - intros [H|[H|(src & H & Hs)]] w'; unfold check_image; rewrite H;
      [done | done |].
    rewrite Hs. by rewrite andb_false_r.
  - intros src e Hsrc Hhttp Hhead. unfold check_image.
    rewrite Hsrc, Hhttp, (startswith_truthy src "http") by done. simpl.
    unfold try_except.
    erewrite bind_raises by (rewrite Hhead; reflexivity). reflexivity.
  - intros src e Hsrc Hhttp Hhead.
    rewrite (check_image_head w img src _ self Hsrc Hhttp Hhead).
    reflexivity.
Qed.

Lemma image_check_skips_witness :
  check_image world_https_clean (Bs4.Tag "img" {[ "src" := "/logo.png" ]} [])
    (__init__ "example.com")
  = (Returns (), __init__ "example.com").
Proof.
  apply (image_check_skips world_unreachable
           (Bs4.Tag "img" {[ "src" := "/logo.png" ]} [])
           (__init__ "example.com")).
  right. right. exists "/logo.png". split; reflexivity.
Defined.

(** ** SEO *)





(** ** Each analysis keeps to its own category *)

Lemma emits_of_emit {A} k (m : M A) :
  (∀ self, is_Some (issues self !! k) →
           ∃ o fs, m self = (o, emit k fs self)) →
  emits k m.
Proof.
  intros H self Hk. destruct (H self Hk) as (o & fs & ->). by exists fs.
Qed.

(** X9. Each of the four analyses, whether it returns or raises, leaves
    the target, the response, the page, the elapsed time and the three
    other lists of findings untouched: the object it leaves is the one it
    was given with findings appended to its own category. *)
Theorem analyses_keep_to_their_category (w : World) :
  emits "security" (analyze_security w)
  ∧ emits "performance" (analyze_performance w)
  ∧ emits "seo" analyze_seo
  ∧ emits "accessibility" analyze_accessibility.
Proof.
  repeat split; apply emits_of_emit; intros self Hk.
  - eexists _, _. by apply analyze_security_emit.
  - destruct (analyze_performance_emit w self Hk) as (fp & _ & ->). eauto.
  - destruct (soup self) as [d|] eqn:Hs.
    + rewrite (analyze_seo_parsed self d Hs Hk).
      destruct (title_without_string d); [|eauto].
      exists (Raises strip_on_none), []. by rewrite emit_nil.
    + rewrite analyze_seo_no_soup by done. eauto.
  - destruct (soup self) as [d|] eqn:Hs.
    + rewrite (analyze_accessibility_emit self d Hs Hk). eauto.
    + rewrite analyze_accessibility_no_soup by done. eauto.
Qed.

Lemma analyses_keep_to_their_category_witness :
  ∃ fs,
    snd (analyze_seo (with_soup page_empty_title (__init__ "example.com")))
    = emit "seo" fs (with_soup page_empty_title (__init__ "example.com")).
Proof.
  destruct (analyses_keep_to_their_category world_unreachable)
    as (_ & _ & Hseo & _).
  apply Hseo. by exists [].
Defined.

(** ** The whole run *)

Lemma run_audit_init w u s1 :
  fetch_website w (__init__ u) = (Returns (), s1) →
  ∃ fp,
    (length fp ≤ length (images s1))%nat
    ∧ run_audit w (__init__ u)
      = let s3 :=
          emit "performance" (load_time_finding (load_time s1) ++ fp)
            (emit "security" (security_list s1) s1) in
        match soup s1 with
        | Some d =>
            if title_without_string d
            then (Raises strip_on_none, s3)
            else
              let s5 :=
                emit "accessibility" (accessibility_list d)
                  (emit "seo"
                     (title_finding d ++ meta_finding d ++ h1_finding d) s3)
              in (Returns (issues s5), s5)
        | None =>
            let s5 :=
              emit "accessibility"
                ["HTML content could not be parsed. Accessibility check skipped."]
                (emit "seo"
                   ["HTML content could not be parsed. SEO check skipped."] s3)
            in (Returns (issues s5), s5)
        end.
Proof.
  intros Hfetch. apply run_audit_from; [exact Hfetch|].
  by apply init_keys_after_fetch with w u.
Qed.

(** The audit raises exactly when the page was fetched with status 200,
    parsed, and has a title element without [.string]. *)
Lemma audit_raises_iff w u e :
  audit w u = Raises e
  ↔ e = strip_on_none
    ∧ ∃ r t d, requests_get w (url (__init__ u)) = inr (r, t)
               ∧ status_code r = 200
               ∧ parsed r = inr d
               ∧ title_without_string d = true.
Proof.
  unfold audit.
  destruct (requests_get w (url (__init__ u))) as [e0|[r t]] eqn:Hget.
  - destruct (run_audit_init w u _
                (fetch_website_raises w _ e0 Hget ltac:(bound)))
      as (fp & _ & ->).
    simpl. split; [done|]. by intros (_ & r & t & d & H & _).
  - pose proof (fetch_website_cases w _ r t Hget ltac:(bound)) as Hfetch.
    destruct (run_audit_init w u _ Hfetch) as (fp & _ & ->). clear Hfetch.
    destruct (Z.eqb_spec (status_code r) 200) as [Hst|Hst].
    + destruct (parsed r) as [e1|d] eqn:Hp.
      * simpl. split; [done|].
        intros (_ & r' & t' & d' & H & _ & Hp' & _).
        inversion H; subst r' t'. congruence.
      * simpl. destruct (title_without_string d) eqn:Ht; simpl.
        -- split.
           ++ intros H. inversion H. split; [done|]. by exists r, t, d.
           ++ by intros [-> _].
        -- split; [done|].
           intros (_ & r' & t' & d' & H & _ & Hp' & Ht').
           inversion H; subst r' t'. rewrite Hp in Hp'.
           inversion Hp'; subst d'. congruence.
    + simpl. split; [done|].
      intros (_ & r' & t' & d' & H & Hst' & _).
      inversion H; subst r' t'. done.
Qed.

(** X10. [run_audit] raises to its caller exactly when the GET returned
    status 200, the body was parsed, and the page has a title element
    whose [.string] is [None]; the exception is then the AttributeError
    of the title test. In every other case a report is returned. *)
Theorem audit_raises_exactly_on_title_without_string (w : World)
    (u : string) :
  (∀ e, audit w u = Raises e → e = strip_on_none)
  ∧ (audit w u = Raises strip_on_none
     ↔ ∃ r t d, requests_get w (url (__init__ u)) = inr (r, t)
                ∧ status_code r = 200
                ∧ parsed r = inr d
                ∧ title_without_string d = true)
  ∧ ((∃ report, audit w u = Returns report)
     ∨ audit w u = Raises strip_on_none).
Proof.
  split; [intros e H; by apply audit_raises_iff in H as [-> _]|].
  split.
  - rewrite audit_raises_iff. split; [by intros [_ H] | by intros H].
  - destruct (audit w u) as [report|e] eqn:Ha; [left; eauto|].
    right. by apply audit_raises_iff in Ha as [-> _].
Qed.

Lemma audit_raises_exactly_on_title_without_string_witness :
  audit world_empty_title "http://example.com" = Raises strip_on_none.
Proof.
  apply (audit_raises_exactly_on_title_without_string world_empty_title
           "http://example.com").
  exists {| status_code := 200; headers := security_headers;
            parsed := inr page_empty_title |}, (1 # 2)%Q, page_empty_title.
  repeat split; reflexivity.
Defined.

(** Reads a category of an object built by [emit]s and attribute
    updates from [__init__], leaving the list as found. *)
Ltac read_at :=
  lazymatch goal with
  | |- issues (emit ?k _ _) !! ?k = _ =>
      erewrite lookup_emit_eq; [reflexivity | read_at]
  | |- issues (emit _ _ _) !! _ = _ =>
      rewrite lookup_emit_ne by done; read_at
  | |- _ =>
      cbn [issues with_soup with_load_time with_response];
      apply init_lookup; unfold categories; set_solver
  end.

Ltac read_report := etrans; [read_at | try reflexivity].

(** X11. When the GET returns a status other than 200, the audit
    returns a report: performance holds the status finding, then the
    slow-page finding if the GET took more than 3 seconds; seo and
    accessibility hold their placeholder; security holds the placeholder
    for a missing response when the status is 400-599, and otherwise the
    scheme or certificate finding followed by the missing headers. No
    HEAD request is made. *)
Theorem non_200_report (w : World) (u : string) (r : Response) (t : Q) :
  requests_get w (url (__init__ u)) = inr (r, t) →
  status_code r ≠ 200 →
  ∃ report,
    audit w u = Returns report
    ∧ report !! "performance"
      = Some (("Page returned status code " +:+ pretty (status_code r))
              :: load_time_finding (Some t))
    ∧ report !! "seo"
      = Some ["HTML content could not be parsed. SEO check skipped."]
    ∧ report !! "accessibility"
      = Some ["HTML content could not be parsed. Accessibility check skipped."]
    ∧ report !! "security"
      = Some (if Response_bool r
              then (if Py.startswith (url (__init__ u)) "https://"
                    then "SSL certificate check failed: 'list' object has no attribute 'decode'"
                    else "Website does not use HTTPS. Enable HTTPS for security.")
                   :: missing_header_findings (headers r)
              else ["No response from server to analyze security."]).
Proof.
  intros Hget Hst.
  pose proof (fetch_website_cases w _ r t Hget ltac:(bound)) as Hfetch.
  destruct (Z.eqb_spec (status_code r) 200) as [|_]; [done|].
  destruct (run_audit_init w u _ Hfetch) as (fp & Hlen & Hrun).
  destruct fp; [|simpl in Hlen; lia]. clear Hlen.
  unfold audit. rewrite Hrun. cbn [soup emit with_issues with_load_time
                                     with_response __init__ fst].
  eexists. split; [reflexivity|].
  repeat split; read_report.
  simpl. by rewrite app_nil_r.
Qed.

Lemma non_200_report_witness :
  ∃ report,
    audit world_moved "example.com" = Returns report
    ∧ report !! "performance" = Some ["Page returned status code 301"]
    ∧ report !! "security"
      = Some ["Website does not use HTTPS. Enable HTTPS for security.";
              "Missing Content-Security-Policy header. Protects against XSS.";
              "Missing X-Content-Type-Options header to prevent MIME-sniffing.";
              "Missing Strict-Transport-Security header to enforce HTTPS."].
Proof.
  destruct (non_200_report world_moved "example.com"
              {| status_code := 301; headers := []; parsed := inr page_plain |}
              (1 # 2)%Q eq_refl ltac:(done))
    as (report & Hrun & Hperf & _ & _ & Hsec).
  exists report. split; [exact Hrun|]. split; [exact Hperf | exact Hsec].
Defined.

(** X12. When the GET returns status 200 but the HTML parser raises,
    the audit still returns a report: performance holds the finding
    "Failed to fetch website" with the parser's message, then the
    slow-page finding if the GET took more than 3 seconds (the load time
    was measured); security is analyzed on the response; seo and
    accessibility hold their placeholder. *)
Theorem parse_failure_report (w : World) (u : string) (r : Response)
    (t : Q) (e : Py.exn) :
  requests_get w (url (__init__ u)) = inr (r, t) →
  status_code r = 200 →
  parsed r = inl e →
  ∃ report,
    audit w u = Returns report
    ∧ report !! "performance"
      = Some (("Failed to fetch website: " +:+ Py.exn_str e)
              :: load_time_finding (Some t))
    ∧ report !! "seo"
      = Some ["HTML content could not be parsed. SEO check skipped."]
    ∧ report !! "accessibility"
      = Some ["HTML content could not be parsed. Accessibility check skipped."]
    ∧ report !! "security"
      = Some ((if Py.startswith (url (__init__ u)) "https://"
               then "SSL certificate check failed: 'list' object has no attribute 'decode'"
               else "Website does not use HTTPS. Enable HTTPS for security.")
              :: missing_header_findings (headers r)).
Proof.
  intros Hget Hst Hp.
  pose proof (fetch_website_cases w _ r t Hget ltac:(bound)) as Hfetch.
  rewrite Hp in Hfetch.
  assert (Response_bool r = true) as Hb by (unfold Response_bool; by rewrite Hst).
  destruct (Z.eqb_spec (status_code r) 200) as [_|]; [|done].
  destruct (run_audit_init w u _ Hfetch) as (fp & Hlen & Hrun).
  destruct fp; [|simpl in Hlen; lia]. clear Hlen.
  unfold audit. rewrite Hrun. cbn [soup emit with_issues with_load_time
                                     with_response __init__ fst].
  eexists. split; [reflexivity|].
  repeat split; read_report.
  - simpl. by rewrite app_nil_r.
  - unfold security_list. simpl. by rewrite Hb.
Qed.

Lemma parse_failure_report_witness :
  ∃ report,
    audit world_unparsable "example.com" = Returns report
    ∧ report !! "performance"
      = Some ["Failed to fetch website: bad markup";
              "Page load time is 3.50s. Aim for under 3 seconds."].
Proof.
  destruct (parse_failure_report world_unparsable "example.com"
              {| status_code := 200; headers := security_headers;
                 parsed := inl (Py.Exn "ParserRejectedMarkup" "bad markup") |}
              (7 # 2)%Q (Py.Exn "ParserRejectedMarkup" "bad markup")
              eq_refl eq_refl eq_refl)
    as (report & Hrun & Hperf & _).
  exists report. split; [exact Hrun|]. rewrite Hperf.
  vm_compute. reflexivity.
Defined.



(** ** The view *)

Lemma audit_returns_dom w u report :
  audit w u = Returns report → dom report = categories.
Proof.
  unfold audit. intros H.
  destruct (run_audit w (__init__ u)) as [o self'] eqn:E. simpl in H. subst o.
  pose proof (run_audit_returns_issues _ _ _ _ E) as ->.
  pose proof (ao_run_audit w (__init__ u)) as (_ & Hdom & _).
  rewrite E in Hdom. cbn [snd] in Hdom. by rewrite dom_issues_init in Hdom.
Qed.

Lemma truthy_true_iff s : Py.truthy s = true ↔ s ≠ "".
Proof. destruct s; split; intros H; done. Qed.



(** X15. Whenever [home] renders a page with a report, the request was
    a POST with a non-empty url field, the url is echoed to the template,
    and the report is the one the audit of that url returned, with
    exactly the four categories. *)
Theorem home_report (w : World) (request : Request) (page : Rendered)
    (report : gmap string (list string)) :
  home w request = Returns page →
  ctx_report page = Some report →
  template page = "index.html"
  ∧ method request = "POST"
  ∧ dom report = categories
  ∧ ∃ u, form request !! "url" = Some u
         ∧ u ≠ ""
         ∧ ctx_url page = Some u
         ∧ audit w u = Returns report.
Proof.
  unfold home. case_bool_decide as Hm.
  - destruct (form request !! "url") as [u|] eqn:Hu.
    + destruct (Py.truthy u) eqn:Ht.
      * apply truthy_true_iff in Ht.
        destruct (audit w u) as [rep|e'] eqn:Ha; [|done].
        intros H Hr. inversion H; subst page. simpl in Hr.
        inversion Hr; subst rep.
        split; [done|]. split; [done|].
        split; [by apply audit_returns_dom with w u|].
        by exists u.
      * intros H Hr. inversion H; subst page. done.
    + intros H Hr. inversion H; subst page. done.
  - intros H Hr. inversion H; subst page. done.
Qed.

Lemma home_report_witness :
  ∃ report,
    home world_unreachable
      {| method := "POST"; form := {[ "url" := "example.com" ]} |}
    = Returns {| template := "index.html"; ctx_report := Some report;
                 ctx_url := Some "example.com" |}
    ∧ dom report = categories.
Proof.
  eexists. split; [vm_compute; reflexivity|].
  eapply (home_report world_unreachable
            {| method := "POST"; form := {[ "url" := "example.com" ]} |});
    [vm_compute; reflexivity | reflexivity].
Defined.



(** ** The security list of a report *)

Lemma fetch_init_security w u :
  ∃ s1, fetch_website w (__init__ u) = (Returns (), s1)
        ∧ issues s1 !! "security" = Some [].
Proof.
  destruct (requests_get w (url (__init__ u))) as [e|[r t]] eqn:Hget.
  - eexists. split; [by apply fetch_website_raises; [|bound]|]. read_at.
  - eexists. split; [by apply fetch_website_cases; [|bound]|].
    destruct (status_code r =? 200); [destruct (parsed r)|]; read_at.
Qed.

(** X17. No report is ever free of security findings, and none ever
    reports a valid certificate: the security list of a returned report
    has between one and four entries, none of which begins with
    "SSL certificate valid until". *)
Theorem report_security_never_empty (w : World) (u : string)
    (report : gmap string (list string)) :
  audit w u = Returns report →
  ∃ fs,
    report !! "security" = Some fs
    ∧ (1 ≤ length fs ≤ 4)%nat
    ∧ ∀ f, f ∈ fs → Py.startswith f "SSL certificate valid until" = false.
Proof.
  unfold audit. intros Ha.
  destruct (fetch_init_security w u) as (s1 & Hfetch & Hsec).
  destruct (run_audit_init w u s1 Hfetch) as (fp & _ & Hrun).
  rewrite Hrun in Ha. clear Hrun.
  assert (report !! "security" = Some (security_list s1)) as Hrep.
  { cbv zeta in Ha. destruct (soup s1) as [d|];
      [destruct (title_without_string d); [done|]|];
      cbn [fst] in Ha;
      match type of Ha with
      | Returns (issues ?s) = _ =>
          set (s5 := s) in *;
          assert (report = issues s5) as -> by congruence; subst s5
      end;
      rewrite !lookup_emit_ne by done;
      by erewrite lookup_emit_eq by exact Hsec. }
  exists (security_list s1). split; [exact Hrep|].
  split; [apply security_list_length|].
  intros f. unfold security_list.
  destruct (response s1) as [r|];
    [|intros H; apply list_elem_of_singleton in H as ->; reflexivity].
  destruct (Response_bool r);
    [|intros H; apply list_elem_of_singleton in H as ->; reflexivity].
  intros H. apply elem_of_cons in H as [->|H];
    [by destruct (Py.startswith (url s1) "https://")|].
  by apply valid_until_absent_headers with (headers r).
Qed.

Lemma report_security_never_empty_witness :
  ∃ fs,
    (∃ report, audit world_https_clean "https://example.com" = Returns report
               ∧ report !! "security" = Some fs)
    ∧ (1 ≤ length fs ≤ 4)%nat.
Proof.
  assert (∃ report, audit world_https_clean "https://example.com"
                    = Returns report) as [report Hr]
    by (eexists; vm_compute; reflexivity).
  destruct (report_security_never_empty world_https_clean
              "https://example.com" report Hr) as (fs & Hfs & Hlen & _).
  exists fs. split; [by exists report | exact Hlen].
Defined.
